(** * Shift selector panel: the time logic (src/timeLogic.ts)

    A shallow embedding of [getShiftTimeRange] and [isShiftActive] together
    with the parts of the JavaScript run time and of the dayjs library they
    call, followed by the properties of the shift-interval specification. *)

From Stdlib Require Import ZArith QArith Qround String Ascii List Bool Lia.
Import ListNotations.

Local Open Scope Z_scope.

(** ** JavaScript strings and numbers

    Strings are taken over the ASCII range.  A number is kept exact (a
    rational, the two infinities or NaN); the rounding to a double that the
    engine performs only matters for literals with more significant digits
    than a double holds and never for integers compared with 0, 23 or 59. *)

Module Js.

Inductive Number : Type :=
| NaN
| PosInfinity
| NegInfinity
| Finite (q : Q).

Definition isNaN (n : Number) : bool :=
  match n with NaN => true | _ => false end.

(** [n < k] and [n > k] for an integer constant [k]; any comparison with NaN
    is false. *)
Definition lt (n : Number) (k : Z) : bool :=
  match n with
  | NaN => false
  | PosInfinity => false
  | NegInfinity => true
  | Finite q => negb (Qle_bool (inject_Z k) q)
  end.

Definition gt (n : Number) (k : Z) : bool :=
  match n with
  | NaN => false
  | PosInfinity => true
  | NegInfinity => false
  | Finite q => negb (Qle_bool q (inject_Z k))
  end.

Definition neg (n : Number) : Number :=
  match n with
  | NaN => NaN
  | PosInfinity => NegInfinity
  | NegInfinity => PosInfinity
  | Finite q => Finite (- q)
  end.

(** ToIntegerOrInfinity on a finite value: truncation towards zero. *)
Definition truncate (q : Q) : Z := Z.quot (Qnum q) (Z.pos (Qden q)).

(** Truthiness of a string: only the empty string is falsy. *)
Definition truthy (s : string) : bool :=
  match s with EmptyString => false | String _ _ => true end.

(** [s.split(sep)] for a one-character separator. *)
Fixpoint split (sep : ascii) (s : string) : list string :=
  match s with
  | EmptyString => [EmptyString]
  | String c s' =>
      if Ascii.eqb c sep then EmptyString :: split sep s'
      else match split sep s' with
           | h :: t => String c h :: t
           | [] => [String c EmptyString]
           end
  end.

(** *** StringToNumber, the conversion behind [Number(s)] *)

Definition code (c : ascii) : Z := Z.of_nat (nat_of_ascii c).

Definition isStrWhiteSpace (c : ascii) : bool :=
  let n := code c in
  (n =? 9) || (n =? 10) || (n =? 11) || (n =? 12) || (n =? 13) || (n =? 32).

Definition isDecimalDigit (c : ascii) : bool :=
  let n := code c in (48 <=? n) && (n <=? 57).

Definition isHexDigit (c : ascii) : bool :=
  let n := code c in
  ((48 <=? n) && (n <=? 57)) || ((65 <=? n) && (n <=? 70))
  || ((97 <=? n) && (n <=? 102)).

Definition isOctalDigit (c : ascii) : bool :=
  let n := code c in (48 <=? n) && (n <=? 55).

Definition isBinaryDigit (c : ascii) : bool :=
  let n := code c in (48 <=? n) && (n <=? 49).

Definition digitValue (c : ascii) : Z :=
  let n := code c in
  if n <=? 57 then n - 48 else if n <=? 70 then n - 55 else n - 87.

Fixpoint span (p : ascii -> bool) (l : list ascii) : list ascii * list ascii :=
  match l with
  | c :: l' =>
      if p c then let '(a, b) := span p l' in (c :: a, b) else ([], l)
  | [] => ([], [])
  end.

Fixpoint dropWhile (p : ascii -> bool) (l : list ascii) : list ascii :=
  match l with
  | c :: l' => if p c then dropWhile p l' else l
  | [] => []
  end.

Definition trim (l : list ascii) : list ascii :=
  rev (dropWhile isStrWhiteSpace (rev (dropWhile isStrWhiteSpace l))).

Definition digitsValue (base : Z) (ds : list ascii) : Z :=
  fold_left (fun acc c => acc * base + digitValue c) ds 0.

(** The value [m * 10^e] as a rational. *)
Definition scale10 (m e : Z) : Q :=
  if 0 <=? e then inject_Z (m * 10 ^ e)
  else Qmake m (Z.to_pos (10 ^ (- e))).

(** ExponentPart_opt: the exponent and what follows it, or [None] when an
    [e] is not followed by a signed integer. *)
Definition exponentPart (l : list ascii) : option (Z * list ascii) :=
  match l with
  | c :: l' =>
      if (code c =? 101) || (code c =? 69) then
        let '(sgn, l'') :=
          match l' with
          | s :: r =>
              if code s =? 43 then (1, r)
              else if code s =? 45 then (-1, r) else (1, l')
          | [] => (1, l')
          end in
        let '(ds, rest) := span isDecimalDigit l'' in
        match ds with
        | [] => None
        | _ :: _ => Some (sgn * digitsValue 10 ds, rest)
        end
      else Some (0, l)
  | [] => Some (0, [])
  end.

(** StrUnsignedDecimalLiteral. *)
Definition unsignedDecimal (l : list ascii) : Number :=
  if list_eq_dec ascii_dec l (list_ascii_of_string "Infinity") then PosInfinity
  else
    let '(ip, r1) := span isDecimalDigit l in
    let '(fp, r2, dot) :=
      match r1 with
      | c :: r =>
          if code c =? 46 then
            let '(fp, r2) := span isDecimalDigit r in (fp, r2, true)
          else ([], r1, false)
      | [] => ([], r1, false)
      end in
    match ip, fp with
    | [], [] => NaN
    | _, _ =>
        match exponentPart r2 with
        | Some (e, []) =>
            Finite (scale10 (digitsValue 10 (ip ++ fp))
                            (e - Z.of_nat (length fp)))
        | _ => NaN
        end
    end.

(** NonDecimalIntegerLiteral: 0x, 0o and 0b prefixes, without a sign. *)
Definition nonDecimal (l : list ascii) : option Z :=
  match l with
  | z :: x :: (d :: _) as ds =>
      if code z =? 48 then
        if (code x =? 120) || (code x =? 88) then
          if forallb isHexDigit ds then Some (digitsValue 16 ds) else None
        else if (code x =? 111) || (code x =? 79) then
          if forallb isOctalDigit ds then Some (digitsValue 8 ds) else None
        else if (code x =? 98) || (code x =? 66) then
          if forallb isBinaryDigit ds then Some (digitsValue 2 ds) else None
        else None
      else None
  | _ => None
  end.

Definition StringToNumber (s : string) : Number :=
  match trim (list_ascii_of_string s) with
  | [] => Finite 0
  | c :: r =>
      if code c =? 43 then unsignedDecimal r
      else if code c =? 45 then neg (unsignedDecimal r)
      else match nonDecimal (c :: r) with
           | Some n => Finite (inject_Z n)
           | None => unsignedDecimal (c :: r)
           end
  end.

End Js.

Local Open Scope string_scope.
Local Open Scope Z_scope.

(** ** Time units and the civil calendar *)

Definition MS_SECOND : Z := 1000.
Definition MS_MINUTE : Z := 60000.
Definition MS_HOUR : Z := 3600000.
Definition MS_DAY : Z := 86400000.

(** Days since 1970-01-01 of a civil date of the proleptic Gregorian
    calendar, for a month in 1..12. *)
Definition daysFromCivil (y m d : Z) : Z :=
  let y' := if m <=? 2 then y - 1 else y in
  let era := y' / 400 in
  let yoe := y' - era * 400 in
  let mp := if 2 <? m then m - 3 else m + 9 in
  let doy := (153 * mp + 2) / 5 + d - 1 in
  let doe := yoe * 365 + yoe / 4 - yoe / 100 + doy in
  era * 146097 + doe - 719468.

(** The civil year a day number falls in. *)
Definition yearOfDays (z : Z) : Z :=
  let z' := z + 719468 in
  let era := z' / 146097 in
  let doe := z' - era * 146097 in
  let yoe := (doe - doe / 1460 + doe / 36524 - doe / 146096) / 365 in
  let doy := doe - (365 * yoe + yoe / 4 - yoe / 100) in
  let mp := (5 * doy + 2) / 153 in
  if mp <? 10 then yoe + era * 400 else yoe + era * 400 + 1.

(** Day of the week of a day number, 0 for Sunday. *)
Definition weekday (z : Z) : Z := (z + 4) mod 7.

(** The reading "y-m-d hh:mm" as milliseconds, the way [Date.UTC] counts. *)
Definition civil (y m d hh mm : Z) : Z :=
  daysFromCivil y m d * MS_DAY + hh * MS_HOUR + mm * MS_MINUTE.

(** ** The dayjs instance

    An instance produced by the timezone plugin carries the civil reading of
    its clock ([$d], read in the host zone), the utc offset in minutes it was
    created with ([$offset]) and the zone name ([$x.$timezone]).  The host
    zone is taken to be UTC, so the native [Date] setters the library calls
    on [$d] are plain arithmetic on the reading.  Setters and [add] rebuild
    the instance through the library's wrapper, which copies [$offset]: they
    change the reading and keep the offset. *)

Record Dayjs : Type := mkDayjs {
  wall : Z;
  offset : Z;
  zone : string;
  valid : bool
}.

Definition invalidDate : Dayjs :=
  {| wall := 0; offset := 0; zone := ""; valid := false |}.

Definition isValid (d : Dayjs) : bool := valid d.

(** [valueOf]: the instant, [$d] minus the added offset. *)
Definition valueOf (d : Dayjs) : Z := wall d - offset d * MS_MINUTE.

(** [.utc()] rebuilds the instance from [toDate()]: the same instant, read
    at offset 0. *)
Definition utc (d : Dayjs) : Dayjs :=
  {| wall := valueOf d; offset := 0; zone := zone d; valid := valid d |}.

Definition withWall (d : Dayjs) (w : Z) : Dayjs :=
  {| wall := w; offset := offset d; zone := zone d; valid := valid d |}.

(** [.add(n, 'day')]: [setDate(getDate() + n)] on the reading. *)
Definition add_day (d : Dayjs) (n : Z) : Dayjs :=
  withWall d (wall d + n * MS_DAY).

(** The setters: [setHours], [setMinutes], [setSeconds], [setMilliseconds]
    replace one field of the reading (MakeTime / MakeDate); a value that is
    not finite gives an invalid date, a fraction is truncated. *)
Definition setField (d : Dayjs) (n : Js.Number) (f : Z -> Z) : Dayjs :=
  match n with
  | Js.Finite q => withWall d (f (Js.truncate q))
  | _ => invalidDate
  end.

Definition hour (d : Dayjs) (n : Js.Number) : Dayjs :=
  setField d n (fun h => wall d / MS_DAY * MS_DAY + h * MS_HOUR + wall d mod MS_HOUR).

Definition minute (d : Dayjs) (n : Js.Number) : Dayjs :=
  setField d n (fun m => wall d / MS_HOUR * MS_HOUR + m * MS_MINUTE + wall d mod MS_MINUTE).

Definition second (d : Dayjs) (n : Js.Number) : Dayjs :=
  setField d n (fun s => wall d / MS_MINUTE * MS_MINUTE + s * MS_SECOND + wall d mod MS_SECOND).

Definition millisecond (d : Dayjs) (n : Js.Number) : Dayjs :=
  setField d n (fun ms => wall d / MS_SECOND * MS_SECOND + ms).

(** [a.isAfter(b)]: comparison of the instants. *)
Definition isAfter (a b : Dayjs) : bool := valueOf b <? valueOf a.

(** What the library takes from its environment: the reader of date
    strings ([dayjs.utc(input).valueOf()], [None] for NaN), the time zone
    data ([zoneKnown], and [zoneOffset tz t], the minutes east of UTC that
    the zone observes at the instant [t]) and the day-granularity
    comparison [a.isSame(b, 'day')].  An unknown zone or an unreadable date
    is reported through an invalid instance, which is what the module tests
    with [isValid]. *)
Class TimeFacility : Type := {
  parseDate : string -> option Z;
  zoneKnown : string -> bool;
  zoneOffset : string -> Z -> Z;
  isSameDay : Dayjs -> Dayjs -> bool
}.

Section Dayjs_tz.
Context {TF : TimeFacility}.

(** The plugin's [fixOffset]: the instant and offset of a civil reading,
    starting from a guessed offset [o0]. *)
Definition fixOffset (localTS o0 : Z) (tz : string) : Z * Z :=
  let utcGuess := localTS - o0 * MS_MINUTE in
  let o2 := zoneOffset tz utcGuess in
  if o0 =? o2 then (utcGuess, o0)
  else
    let utcGuess' := utcGuess - (o2 - o0) * MS_MINUTE in
    let o3 := zoneOffset tz utcGuess' in
    if o2 =? o3 then (utcGuess', o2)
    else (localTS - Z.min o2 o3 * MS_MINUTE, Z.max o2 o3).

(** [dayjs.tz(input, tz)] for a string: the reading of [input] is resolved
    in the zone, the first guess being the offset observed at the current
    instant. *)
Definition tz_string (now : Z) (input tz : string) : Dayjs :=
  if zoneKnown tz then
    let previousOffset := zoneOffset tz now in
    match parseDate input with
    | None => invalidDate
    | Some localTs =>
        let '(targetTs, targetOffset) := fixOffset localTs previousOffset tz in
        {| wall := targetTs + targetOffset * MS_MINUTE;
           offset := targetOffset; zone := tz; valid := true |}
    end
  else invalidDate.

(** [dayjs.tz(dayjs(), tz)]: the current instant read in the zone. *)
Definition tz_now (now : Z) (tz : string) : Dayjs :=
  if zoneKnown tz then
    let o := zoneOffset tz now in
    {| wall := now + o * MS_MINUTE; offset := o; zone := tz; valid := true |}
  else invalidDate.

End Dayjs_tz.

(** ** The module: [getShiftTimeRange] and [isShiftActive] *)

(** [Shift] of src/types.ts; [dateOffset] is optional and counts whole
    days. *)
Record Shift : Type := mkShift {
  name : string;
  start : string;
  end_ : string;
  dateOffset : option Z
}.

Record TimeRange : Type := mkRange { from : Z; to : Z }.

(** The throw sites of [getShiftTimeRange], named after their messages. *)
Inductive Thrown : Type :=
| InvalidShiftConfiguration   (* 'Invalid shift configuration: ...' *)
| InvalidTimezone             (* 'Invalid timezone: timezone must be ...' *)
| InvalidTimezoneOrDate       (* 'Invalid timezone or date: ...' *)
| InvalidTimeFormat           (* 'Invalid time format: ...' *)
| InvalidTimeValues           (* 'Invalid time values: ...' *)
| InvalidHourValues           (* 'Invalid hour values: ...' *)
| InvalidMinuteValues.        (* 'Invalid minute values: ...' *)

(** The error kinds of the specification. *)
Inductive ErrorKind : Type :=
| InvalidShiftError
| InvalidTimezoneError
| InvalidTimeFormatError
| InvalidTimeValueError
| InvalidHourError
| InvalidMinuteError.

Definition kindOf (e : Thrown) : ErrorKind :=
  match e with
  | InvalidShiftConfiguration => InvalidShiftError
  | InvalidTimezone => InvalidTimezoneError
  | InvalidTimezoneOrDate => InvalidTimezoneError
  | InvalidTimeFormat => InvalidTimeFormatError
  | InvalidTimeValues => InvalidTimeValueError
  | InvalidHourValues => InvalidHourError
  | InvalidMinuteValues => InvalidMinuteError
  end.

Inductive Completion (A : Type) : Type :=
| Return (a : A)
| Throw (e : Thrown).

Arguments Return {A} a.
Arguments Throw {A} e.

Notation "'throwIf' c 'then' e ;; k" := (if c then Throw e else k)
  (at level 10, c at level 99, e at level 9, k at level 200).

(** Truthiness of an optional string argument: absent and empty are falsy. *)
Definition supplied (s : option string) : bool :=
  match s with Some s => Js.truthy s | None => false end.

Definition stringOf (s : option string) : string :=
  match s with Some s => s | None => "" end.

Section TimeLogic.
Context {TF : TimeFacility}.

(** [getShiftTimeRange(shift, tz, selectedDate)].  [shift] is [None] for a
    null or undefined object, [tz] is [None] for a value that is not a
    string, [selectedDate] is [None] when omitted; [now] is the reading of
    the system clock. *)
Definition getShiftTimeRange (shift : option Shift) (tz : option string)
    (selectedDate : option string) (now : Z) : Completion TimeRange :=
  match shift with
  | None => Throw InvalidShiftConfiguration
  | Some shift =>
    throwIf negb (Js.truthy (start shift)) || negb (Js.truthy (end_ shift))
      then InvalidShiftConfiguration ;;
    match tz with
    | None => Throw InvalidTimezone
    | Some tz =>
      throwIf negb (Js.truthy tz) then InvalidTimezone ;;
      let baseDate :=
        if supplied selectedDate then tz_string now (stringOf selectedDate) tz
        else tz_now now tz in
      throwIf negb (isValid baseDate) then InvalidTimezoneOrDate ;;
      let baseDate :=
        match dateOffset shift with
        | Some d => if d =? 0 then baseDate else add_day baseDate d
        | None => baseDate
        end in
      let startParts := Js.split ":" (start shift) in
      let endParts := Js.split ":" (end_ shift) in
      throwIf negb (length startParts =? 2)%nat || negb (length endParts =? 2)%nat
        then InvalidTimeFormat ;;
      let startNums := map Js.StringToNumber startParts in
      let endNums := map Js.StringToNumber endParts in
      let startHour := nth 0 startNums Js.NaN in
      let startMin := nth 1 startNums Js.NaN in
      let endHour := nth 0 endNums Js.NaN in
      let endMin := nth 1 endNums Js.NaN in
      throwIf Js.isNaN startHour || Js.isNaN startMin
              || Js.isNaN endHour || Js.isNaN endMin
        then InvalidTimeValues ;;
      throwIf Js.lt startHour 0 || Js.gt startHour 23
              || Js.lt endHour 0 || Js.gt endHour 23
        then InvalidHourValues ;;
      throwIf Js.lt startMin 0 || Js.gt startMin 59
              || Js.lt endMin 0 || Js.gt endMin 59
        then InvalidMinuteValues ;;
      let zero := Js.Finite 0 in
      let from := millisecond (second (minute (hour baseDate startHour) startMin) zero) zero in
      let to := millisecond (second (minute (hour baseDate endHour) endMin) zero) zero in
      let to := if isAfter from to then add_day to 1 else to in
      Return {| from := valueOf (utc from); to := valueOf (utc to) |}
    end
  end.

(** [isShiftActive(shift, tz, selectedDate)]; the clock is read once. *)
Definition isShiftActive (shift : option Shift) (tz : option string)
    (selectedDate : option string) (now : Z) : Completion bool :=
  match getShiftTimeRange shift tz selectedDate now with
  | Throw e => Throw e
  | Return r =>
      if supplied selectedDate then
        let selected := tz_string now (stringOf selectedDate) (stringOf tz) in
        let today := tz_now now (stringOf tz) in
        if isSameDay selected today then
          Return ((from r <=? now) && (now <=? to r))
        else Return false
      else Return ((from r <=? now) && (now <=? to r))
  end.

End TimeLogic.

(** ** A sample time facility

    Two zones, UTC and Europe/Warsaw under the rule of the European Union in
    force since 1996 (summer time from 01:00 UTC on the last Sunday of March
    to 01:00 UTC on the last Sunday of October), and the reader of
    'YYYY-MM-DD' strings, which hands the three fields to [Date.UTC].  It
    serves the literal scenarios; the general properties hold for every
    facility. *)

Module Sample.

Definition lastSunday (y m : Z) : Z :=
  let d := daysFromCivil y m 31 in d - weekday d.

Definition warsawOffset (t : Z) : Z :=
  let y := yearOfDays (t / MS_DAY) in
  let dstStart := lastSunday y 3 * MS_DAY + MS_HOUR in
  let dstEnd := lastSunday y 10 * MS_DAY + MS_HOUR in
  if (dstStart <=? t) && (t <? dstEnd) then 120 else 60.

Definition known (tz : string) : bool :=
  String.eqb tz "UTC" || String.eqb tz "Europe/Warsaw".

Definition offsetAt (tz : string) (t : Z) : Z :=
  if String.eqb tz "Europe/Warsaw" then warsawOffset t else 0.

(** [Date.UTC(y, m - 1, d)] on the fields of 'YYYY-MM-DD': months and days
    out of range carry over, years 0..99 count from 1900. *)
Definition readDate (s : string) : option Z :=
  match list_ascii_of_string s with
  | [y1; y2; y3; y4; s1; m1; m2; s2; d1; d2] =>
      if forallb Js.isDecimalDigit [y1; y2; y3; y4; m1; m2; d1; d2]
         && (Js.code s1 =? 45) && (Js.code s2 =? 45)
      then
        let y := Js.digitsValue 10 [y1; y2; y3; y4] in
        let y := if y <? 100 then 1900 + y else y in
        let mi := Js.digitsValue 10 [m1; m2] - 1 in
        let d := Js.digitsValue 10 [d1; d2] in
        Some ((daysFromCivil (y + mi / 12) (mi mod 12 + 1) 1 + d - 1) * MS_DAY)
      else None
  | _ => None
  end.

(** [a.isSame(b, 'day')]: [a.startOf('day') <= b <= a.endOf('day')], where
    the plugin's [startOf] takes the ends of the civil day of [a] and
    re-attaches the zone with the local time kept. *)
Definition sameDay (a b : Dayjs) : bool :=
  let ws := wall a / MS_DAY * MS_DAY in
  let we := ws + MS_DAY - 1 in
  let s := ws - offsetAt (zone a) ws * MS_MINUTE in
  let e := we - offsetAt (zone a) we * MS_MINUTE in
  (s <=? valueOf b) && (valueOf b <=? e).

#[export] Instance facility : TimeFacility :=
  {| parseDate := readDate; zoneKnown := known;
     zoneOffset := offsetAt; isSameDay := sameDay |}.

(** The civil reading of an instant in a zone, as
    [dayjs.utc(t).tz(tz)] shows it. *)
Definition localReading (tz : string) (t : Z) : Z :=
  t + offsetAt tz t * MS_MINUTE.

End Sample.

(** Two readings of the clock for the scenarios, one under each offset of
    Europe/Warsaw. *)
Definition winterNoon : Z := civil 2025 1 15 12 0.
Definition summerNoon : Z := civil 2025 7 15 12 0.

(** ** Vocabulary of the properties *)

(** The time of day a validated 'HH:mm' string denotes, in minutes after
    midnight: both components converted and truncated as the setters do. *)
Definition minuteOfDay (s : string) : option Z :=
  match Js.split ":" s with
  | [a; b] =>
      match Js.StringToNumber a, Js.StringToNumber b with
      | Js.Finite h, Js.Finite m => Some (Js.truncate h * 60 + Js.truncate m)
      | _, _ => None
      end
  | _ => None
  end.

(** A time string that passes the format, value, hour and minute checks. *)
Definition wellFormedTime (s : string) : bool :=
  match Js.split ":" s with
  | [a; b] =>
      let h := Js.StringToNumber a in
      let m := Js.StringToNumber b in
      negb (Js.isNaN h) && negb (Js.isNaN m)
      && negb (Js.lt h 0) && negb (Js.gt h 23)
      && negb (Js.lt m 0) && negb (Js.gt m 59)
  | _ => false
  end.

(** A component that converts to the integer [n]. *)
Definition denotesInteger (s : string) (n : Z) : Prop :=
  exists q, Js.StringToNumber s = Js.Finite q /\ (q == inject_Z n)%Q.

Section Vocabulary.
Context {TF : TimeFacility}.

(** The base date of a call, before the offset is applied. *)
Definition baseDate (tz : string) (selectedDate : option string) (now : Z) : Dayjs :=
  if supplied selectedDate then tz_string now (stringOf selectedDate) tz
  else tz_now now tz.

(** The anchor: the base date moved by the shift's offset. *)
Definition anchor (shift : Shift) (tz : string) (selectedDate : option string)
    (now : Z) : Dayjs :=
  match dateOffset shift with
  | Some d => add_day (baseDate tz selectedDate now) d
  | None => baseDate tz selectedDate now
  end.

(** The instant at which the anchor's civil day begins, read at the
    anchor's offset. *)
Definition anchorMidnight (shift : Shift) (tz : string)
    (selectedDate : option string) (now : Z) : Z :=
  let a := anchor shift tz selectedDate now in
  wall a / MS_DAY * MS_DAY - offset a * MS_MINUTE.

(** [selected.isSame(today, 'day')] as [isShiftActive] asks it: the selected
    date and the current instant, both read in the zone, lie on one civil
    day. *)
Definition selectedIsToday (tz selectedDate : string) (now : Z) : bool :=
  isSameDay (tz_string now selectedDate tz) (tz_now now tz).

(** The civil day, as a day number, on which the instant [t] falls in the
    zone. *)
Definition localDay (tz : string) (t : Z) : Z :=
  (t + zoneOffset tz t * MS_MINUTE) / MS_DAY.

(** Whether the zone argument and the date resolve to a valid base date:
    the two checks made before the time strings are read. *)
Definition resolvable (tz selectedDate : option string) (now : Z) : bool :=
  match tz with
  | Some z => Js.truthy z && valid (baseDate z selectedDate now)
  | None => false
  end.

(** The inputs that pass every check of [getShiftTimeRange]. *)
Definition accepted (shift : Shift) (tz : string) (selectedDate : option string)
    (now : Z) : bool :=
  Js.truthy tz && valid (baseDate tz selectedDate now)
  && wellFormedTime (start shift) && wellFormedTime (end_ shift).

End Vocabulary.

(** ** The messages of the thrown errors

    [err.message] for each throw site of [getShiftTimeRange]; a template
    prints an omitted date as 'undefined'. *)

Definition dquote : string := String (ascii_of_nat 34) EmptyString.

Definition quoted (s : string) : string := dquote ++ s ++ dquote.

Definition messageOf (e : Thrown) (shift : Shift) (tz : string)
    (selectedDate : option string) : string :=
  match e with
  | InvalidShiftConfiguration =>
      "Invalid shift configuration: shift object must have start and end times"
  | InvalidTimezone =>
      "Invalid timezone: timezone must be a non-empty string"
  | InvalidTimezoneOrDate =>
      "Invalid timezone or date: " ++ quoted tz ++ " / "
      ++ quoted (match selectedDate with Some d => d | None => "undefined" end)
  | InvalidTimeFormat =>
      "Invalid time format: start=" ++ quoted (start shift) ++ ", end="
      ++ quoted (end_ shift) ++ ". Expected HH:mm format."
  | InvalidTimeValues =>
      "Invalid time values: start=" ++ quoted (start shift) ++ ", end="
      ++ quoted (end_ shift) ++ ". Hours and minutes must be numbers."
  | InvalidHourValues =>
      "Invalid hour values: hours must be between 0 and 23"
  | InvalidMinuteValues =>
      "Invalid minute values: minutes must be between 0 and 59"
  end.

(** ** The panel (src/components/SimplePanel.tsx) *)

Module Panel.

(** [s.toLowerCase()] over the ASCII range. *)
Definition toLowerChar (c : ascii) : ascii :=
  let n := nat_of_ascii c in
  if ((65 <=? n) && (n <=? 90))%nat then ascii_of_nat (n + 32) else c.

Fixpoint toLowerCase (s : string) : string :=
  match s with
  | EmptyString => EmptyString
  | String c s' => String (toLowerChar c) (toLowerCase s')
  end.

(** [s.includes(pat)]: [pat] occurs in [s]. *)
Fixpoint includes (s pat : string) : bool :=
  String.prefix pat s
  || match s with
     | EmptyString => false
     | String _ s' => includes s' pat
     end.

(** [getShiftIcon(shiftName)]: the icon of a shift, chosen from its name. *)
Definition getShiftIcon (shiftName : string) : string :=
  let name := toLowerCase shiftName in
  if includes name "morning" || includes name "day" then "sun"
  else if includes name "evening" || includes name "afternoon" then "cloud"
  else if includes name "night" then "moon"
  else if includes name "weekend" then "calendar-alt"
  else "clock-nine".

Inductive DisplayMode : Type := ButtonsMode | DropdownMode.

(** [SimpleOptions] of src/types.ts as the panel receives it: [shifts] may
    be missing, [showDatePicker] and [timezone] may be undefined. *)
Record SimpleOptions : Type := mkOptions {
  shifts : option (list Shift);
  displayMode : DisplayMode;
  showDatePicker : option bool;
  timezone : option string
}.

(** The destructuring defaults of [SimplePanelContent]. *)
Definition showDatePickerOf (o : SimpleOptions) : bool :=
  match showDatePicker o with Some b => b | None => true end.

Definition timezoneOf (o : SimpleOptions) : string :=
  match timezone o with Some z => z | None => "Europe/Warsaw" end.

(** The three pieces of component state. *)
Record State : Type := mkState {
  selectedDate : string;
  selectedShift : option Shift;
  error : option string
}.

Section Handlers.
Context {TF : TimeFacility}.

(** [onShiftClick(shift)].  The calls of [onChangeTimeRange] are logged in
    order; the callback is taken not to throw. *)
Definition onShiftClick (o : SimpleOptions) (now : Z) (shift : Shift)
    (st : State) (log : list TimeRange) : State * list TimeRange :=
  match getShiftTimeRange (Some shift) (Some (timezoneOf o))
          (Some (selectedDate st)) now with
  | Return r =>
      ({| selectedDate := selectedDate st; selectedShift := Some shift;
          error := None |},
       (log ++ [r])%list)
  | Throw e =>
      ({| selectedDate := selectedDate st; selectedShift := selectedShift st;
          error := Some (messageOf e shift (timezoneOf o)
                           (Some (selectedDate st))) |},
       log)
  end.

End Handlers.

(** The [onChange] of the date input. *)
Definition onDateChange (value : string) (st : State) : State :=
  {| selectedDate := value; selectedShift := None; error := error st |}.

(** [onTodayClick]; [today] is [dayjs().format('YYYY-MM-DD')]. *)
Definition onTodayClick (today : string) (st : State) : State :=
  {| selectedDate := today; selectedShift := selectedShift st;
     error := error st |}.

(** The Dismiss button of the error view. *)
Definition onDismiss (st : State) : State :=
  {| selectedDate := selectedDate st; selectedShift := selectedShift st;
     error := None |}.

(** What is rendered, as far as it depends on options and state. *)
Record ShiftButton : Type := mkButton {
  buttonShift : Shift;
  pressed : bool;
  icon : string;
  title : string
}.

Inductive View : Type :=
| EmptyState
| ErrorView (message : string)
| DropdownView (datePicker : bool) (labels : list string)
    (selectedLabel : option string) (prefixIcon : string)
| ButtonsView (datePicker : bool) (buttons : list ShiftButton).

(** The label of a dropdown option. *)
Definition optionLabel (s : Shift) : string :=
  name s ++ " (" ++ start s ++ " - " ++ end_ s ++ ")".

(** [selectedShift?.name === shift.name]. *)
Definition isSelected (st : State) (shift : Shift) : bool :=
  match selectedShift st with
  | Some s => String.eqb (name s) (name shift)
  | None => false
  end.

Definition shiftButton (st : State) (shift : Shift) : ShiftButton :=
  {| buttonShift := shift; pressed := isSelected st shift;
     icon := getShiftIcon (name shift);
     title := name shift ++ ": " ++ start shift ++ " - " ++ end_ shift |}.

Definition render (o : SimpleOptions) (st : State) : View :=
  match shifts o with
  | None => EmptyState
  | Some [] => EmptyState
  | Some l =>
      match error st with
      | Some (String c m) => ErrorView (String c m)
      | _ =>
          match displayMode o with
          | DropdownMode =>
              DropdownView (showDatePickerOf o) (map optionLabel l)
                (option_map optionLabel (selectedShift st))
                (match selectedShift st with
                 | Some s => getShiftIcon (name s)
                 | None => "clock-nine"
                 end)
          | ButtonsMode =>
              ButtonsView (showDatePickerOf o) (map (shiftButton st) l)
          end
      end
  end.

End Panel.

(** ** The shifts editor (src/components/SimpleEditor.tsx) *)

From Stdlib Require DecimalString DecimalZ.

Module Editor.

(** [value || []]. *)
Definition shiftsOf (value : option (list Shift)) : list Shift :=
  match value with Some l => l | None => [] end.

(** The shift that 'Add Shift' appends. *)
Definition newShift : Shift := mkShift "New Shift" "08:00" "16:00" (Some 0).

(** [onAddShift]: the list handed to [onChange]. *)
Definition onAddShift (value : option (list Shift)) : list Shift :=
  (shiftsOf value ++ [newShift])%list.

(** [onRemoveShift(index)]: [splice(index, 1)] on a copy. *)
Definition onRemoveShift (value : option (list Shift)) (index : nat) : list Shift :=
  (firstn index (shiftsOf value) ++ skipn (S index) (shiftsOf value))%list.

(** [onShiftChange(index, updatedShift)]: assignment at [index] on a copy.
    At [index = length] the assignment appends; further out it leaves holes
    in the array, which is no list of shifts: [None]. *)
Fixpoint assign (l : list Shift) (index : nat) (x : Shift) : option (list Shift) :=
  match l, index with
  | [], O => Some [x]
  | [], S _ => None
  | _ :: t, O => Some (x :: t)
  | h :: t, S i => option_map (cons h) (assign t i x)
  end.

Definition onShiftChange (value : option (list Shift)) (index : nat)
    (updatedShift : Shift) : option (list Shift) :=
  assign (shiftsOf value) index updatedShift.

(** [parseInt(s, 10) || 0]: blanks skipped, an optional sign, the longest
    run of decimal digits; no digit gives NaN, which [|| 0] turns into 0.
    The value is kept exact. *)
Definition parseIntOr0 (s : string) : Z :=
  let l := Js.dropWhile Js.isStrWhiteSpace (list_ascii_of_string s) in
  let '(sign, l) :=
    match l with
    | c :: r =>
        if Js.code c =? 45 then (-1, r)
        else if Js.code c =? 43 then (1, r) else (1, l)
    | [] => (1, l)
    end in
  let '(ds, _) := Js.span Js.isDecimalDigit l in
  sign * Js.digitsValue 10 ds.

(** [shift.dateOffset ?? 0]. *)
Definition offsetOf (s : Shift) : Z :=
  match dateOffset s with Some d => d | None => 0 end.

(** The text the number input shows for an integer value ([String(n)],
    for an integer below 1e21 in size): its decimal digits, after a '-'
    when it is negative. *)
Definition displayed (n : Z) : string :=
  DecimalString.NilEmpty.string_of_int (Z.to_int n).

(** What a row of the editor can do to its shift: the object handed to
    [onShiftChange] by each control. *)
Inductive Edit : Type :=
| SetName (v : string)
| SetStart (v : string)
| SetEnd (v : string)
| OffsetMinus
| OffsetInput (v : string)
| OffsetPlus.

Definition applyEdit (e : Edit) (s : Shift) : Shift :=
  match e with
  | SetName v => mkShift v (start s) (end_ s) (dateOffset s)
  | SetStart v => mkShift (name s) v (end_ s) (dateOffset s)
  | SetEnd v => mkShift (name s) (start s) v (dateOffset s)
  | OffsetMinus => mkShift (name s) (start s) (end_ s) (Some (offsetOf s - 1))
  | OffsetInput v => mkShift (name s) (start s) (end_ s) (Some (parseIntOr0 v))
  | OffsetPlus => mkShift (name s) (start s) (end_ s) (Some (offsetOf s + 1))
  end.

(** A control of row [index] is used: the row's shift is edited and stored
    back.  Rows exist for the indices of the list only: [None] otherwise. *)
Definition onRowEdit (value : option (list Shift)) (index : nat) (e : Edit)
    : option (list Shift) :=
  match nth_error (shiftsOf value) index with
  | Some s => onShiftChange value index (applyEdit e s)
  | None => None
  end.

End Editor.

(** ** The error boundary (src/components/ErrorBoundary.tsx) *)

Module Boundary.

(** The component state; an error is kept by its message. *)
Record State : Type := mkState {
  hasError : bool;
  error : option string;
  errorInfo : option string
}.

(** The state set by the constructor. *)
Definition initial : State :=
  {| hasError := false; error := None; errorInfo := None |}.

(** The two lifecycle calls made when a child throws. *)
Inductive Event : Type :=
| DerivedStateFromError (message : string)
| DidCatch (message info : string).

(** [getDerivedStateFromError] returns [{ hasError: true, error }] and
    [componentDidCatch] calls [setState({ error, errorInfo })]; both are
    merged into the state. *)
Definition step (st : State) (ev : Event) : State :=
  match ev with
  | DerivedStateFromError m =>
      {| hasError := true; error := Some m; errorInfo := errorInfo st |}
  | DidCatch m info =>
      {| hasError := hasError st; error := Some m; errorInfo := Some info |}
  end.

Inductive Output : Type :=
| Children
| Fallback
| DefaultUI (message : string).

(** [render()]; [fallback] tells whether the prop is given. *)
Definition render (fallback : bool) (st : State) : Output :=
  if hasError st then
    if fallback then Fallback
    else DefaultUI (match error st with
                    | Some (String c m) => String c m
                    | _ => "An unexpected error occurred"
                    end)
  else Children.

End Boundary.

(** * Properties *)


Example split_hhmm : Js.split ":" "08:00" = ["08"; "00"].
Proof. reflexivity. Qed.

Example split_no_colon : Js.split ":" "08" = ["08"].
Proof. reflexivity. Qed.

Example split_trailing : Js.split ":" "8:" = ["8"; ""].
Proof. reflexivity. Qed.

Example number_08 : Js.StringToNumber "08" = Js.Finite (8 # 1).
Proof. reflexivity. Qed.

Example number_fraction : Js.StringToNumber "8.5" = Js.Finite (85 # 10).
Proof. reflexivity. Qed.

Example number_empty : Js.StringToNumber "" = Js.Finite 0.
Proof. reflexivity. Qed.

Example number_hex : Js.StringToNumber "0x10" = Js.Finite (16 # 1).
Proof. reflexivity. Qed.

Example number_exp : Js.StringToNumber " 1e1 " = Js.Finite (10 # 1).
Proof. reflexivity. Qed.

Example number_letters : Js.StringToNumber "ab" = Js.NaN.
Proof. reflexivity. Qed.

Example number_dot : Js.StringToNumber "." = Js.NaN.
Proof. reflexivity. Qed.

Example number_neg_inf : Js.StringToNumber "-Infinity" = Js.NegInfinity.
Proof. reflexivity. Qed.

Example number_leading_dot : Js.StringToNumber ".5" = Js.Finite (5 # 10).
Proof. reflexivity. Qed.

Example number_trailing_dot : Js.StringToNumber "5." = Js.Finite (5 # 1).
Proof. reflexivity. Qed.

Example number_bare_prefix : Js.StringToNumber "0x" = Js.NaN.
Proof. reflexivity. Qed.

Example number_signed_hex : Js.StringToNumber "-0x10" = Js.NaN.
Proof. reflexivity. Qed.

Example number_bare_exponent : Js.StringToNumber "1e" = Js.NaN.
Proof. reflexivity. Qed.

Example number_separator : Js.StringToNumber "1_0" = Js.NaN.
Proof. reflexivity. Qed.

Example number_negative : Js.StringToNumber "-1" = Js.Finite (-1 # 1).
Proof. reflexivity. Qed.

Example truncate_fraction : Js.truncate (85 # 10) = 8.
Proof. reflexivity. Qed.

Example truncate_towards_zero : Js.truncate (- 5 # 10) = 0.
Proof. reflexivity. Qed.

Example compare_fraction :
  Js.lt (Js.Finite (85 # 10)) 0 = false /\ Js.gt (Js.Finite (85 # 10)) 23 = false /\
  Js.gt (Js.Finite (235 # 10)) 23 = true /\ Js.lt (Js.Finite (- 5 # 10)) 0 = true.
Proof. repeat split. Qed.

Example epoch_day : daysFromCivil 1970 1 1 = 0.
Proof. reflexivity. Qed.

Example day_20250115 : daysFromCivil 2025 1 15 = 20103.
Proof. reflexivity. Qed.

Example year_20250115 : yearOfDays 20103 = 2025.
Proof. reflexivity. Qed.

Example weekday_20250330 : weekday (daysFromCivil 2025 3 30) = 0.
Proof. reflexivity. Qed.

Example warsaw_winter : Sample.warsawOffset (civil 2025 1 15 12 0) = 60.
Proof. reflexivity. Qed.

Example warsaw_summer : Sample.warsawOffset (civil 2025 7 15 12 0) = 120.
Proof. reflexivity. Qed.

Example warsaw_spring_forward :
  Sample.warsawOffset (civil 2025 3 30 0 59) = 60 /\
  Sample.warsawOffset (civil 2025 3 30 1 0) = 120.
Proof. split; reflexivity. Qed.

Example warsaw_fall_back :
  Sample.warsawOffset (civil 2025 10 26 0 59) = 120 /\
  Sample.warsawOffset (civil 2025 10 26 1 0) = 60.
Proof. split; reflexivity. Qed.

Example readDate_20250115 : Sample.readDate "2025-01-15" = Some (civil 2025 1 15 0 0).
Proof. reflexivity. Qed.

Example readDate_overflow : Sample.readDate "2025-02-31" = Some (civil 2025 3 3 0 0).
Proof. reflexivity. Qed.

Example readDate_garbage : Sample.readDate "tomorrow" = None.
Proof. reflexivity. Qed.

Example morning_warsaw :
  getShiftTimeRange (TF := Sample.facility)
    (Some (mkShift "Morning" "08:00" "16:00" None))
    (Some "Europe/Warsaw") (Some "2025-01-15") (civil 2025 6 1 12 0)
  = Return {| from := civil 2025 1 15 7 0; to := civil 2025 1 15 15 0 |}.
Proof. vm_compute. reflexivity. Qed.

(** ** Arithmetic of the setters *)

Lemma truncate_range (q : Q) (k : Z) :
  Js.lt (Js.Finite q) 0 = false -> Js.gt (Js.Finite q) k = false ->
  0 <= Js.truncate q <= k.
Proof.
  unfold Js.lt, Js.gt, Js.truncate, Qle_bool. destruct q as [n d]. simpl.
  rewrite !Bool.negb_false_iff, !Z.leb_le. intros H0 Hk.
  assert (Hn : 0 <= n) by lia.
  rewrite Z.quot_div_nonneg by lia. split.
  - apply Z.div_pos; lia.
  - apply Z.div_le_upper_bound; lia.
Qed.

Lemma truncate_zero : Js.truncate 0 = 0.
Proof. reflexivity. Qed.

Lemma setters_wall (b : Dayjs) (qh qm : Q) :
  0 <= Js.truncate qh <= 23 -> 0 <= Js.truncate qm <= 59 ->
  millisecond (second (minute (hour b (Js.Finite qh)) (Js.Finite qm))
                      (Js.Finite 0)) (Js.Finite 0)
  = withWall b (wall b / MS_DAY * MS_DAY + Js.truncate qh * MS_HOUR
                + Js.truncate qm * MS_MINUTE).
Proof.
  intros Hh Hm.
  unfold millisecond, second, minute, hour, setField, withWall. cbn [wall offset zone valid].
  rewrite truncate_zero. f_equal.
  generalize (Js.truncate qh) (Js.truncate qm) Hh Hm. intros h m Hh' Hm'.
  unfold MS_DAY, MS_HOUR, MS_MINUTE, MS_SECOND.
  Z.div_mod_to_equations. lia.
Qed.

(** The setters and [add] keep the offset the instance was created with. *)
Lemma setters_keep_offset (b : Dayjs) (qh qm : Q) (n : Z) :
  offset (add_day (millisecond (second (minute (hour b (Js.Finite qh))
                                               (Js.Finite qm))
                                       (Js.Finite 0)) (Js.Finite 0)) n)
  = offset b.
Proof. reflexivity. Qed.

Lemma add_day_zero (d : Dayjs) : add_day d 0 = d.
Proof.
  destruct d. unfold add_day, withWall. cbn. f_equal. lia.
Qed.

(** ** What a returning call has checked and computed *)

Lemma in_range_finite (n : Js.Number) (k : Z) :
  Js.isNaN n = false -> Js.lt n 0 = false -> Js.gt n k = false ->
  exists q, n = Js.Finite q /\ 0 <= Js.truncate q <= k.
Proof.
  destruct n as [| | |q]; try discriminate. intros _ H0 Hk.
  exists q. split; [reflexivity|]. now apply truncate_range.
Qed.

(** A guard that did not throw: every disjunct of its condition is false. *)
Ltac pass_guard H :=
  match type of H with
  | (if ?c then _ else _) = _ =>
      let E := fresh "G" in
      destruct c eqn:E; [discriminate H|];
      repeat (apply Bool.orb_false_elim in E;
              let E' := fresh "G" in destruct E as [E E'])
  end.

Section Resolution.
Context {TF : TimeFacility}.

Lemma anchor_of_offset (sh : Shift) (z : string) (sd : option string) (now : Z) :
  match dateOffset sh with
  | Some d => if d =? 0 then baseDate z sd now else add_day (baseDate z sd now) d
  | None => baseDate z sd now
  end = anchor sh z sd now.
Proof.
  unfold anchor. destruct (dateOffset sh) as [d|]; [|reflexivity].
  destruct (Z.eqb_spec d 0) as [->|]; [|reflexivity].
  now rewrite add_day_zero.
Qed.

Lemma getShiftTimeRange_returns (shift : option Shift) (tz sd : option string)
    (now : Z) (r : TimeRange) :
  getShiftTimeRange shift tz sd now = Return r ->
  exists sh z s e,
    shift = Some sh /\ tz = Some z /\
    Js.truthy (start sh) = true /\ Js.truthy (end_ sh) = true /\
    Js.truthy z = true /\ valid (baseDate z sd now) = true /\
    minuteOfDay (start sh) = Some s /\ minuteOfDay (end_ sh) = Some e /\
    0 <= s < 1440 /\ 0 <= e < 1440 /\
    from r = anchorMidnight sh z sd now + s * MS_MINUTE /\
    to r = anchorMidnight sh z sd now + e * MS_MINUTE
           + (if e <? s then MS_DAY else 0).
Proof.
  unfold getShiftTimeRange. intros H.
  destruct shift as [sh|]; [|discriminate].
  destruct (Js.truthy (start sh)) eqn:Hs; [|discriminate].
  destruct (Js.truthy (end_ sh)) eqn:He; [|discriminate].
  destruct tz as [z|]; [|discriminate].
  destruct (Js.truthy z) eqn:Hz; [|discriminate].
  cbn [negb orb] in H.
  change (if supplied sd then tz_string now (stringOf sd) z else tz_now now z)
    with (baseDate z sd now) in H.
  unfold isValid in H.
  destruct (valid (baseDate z sd now)) eqn:Hv; [|discriminate].
  cbn [negb] in H.
  rewrite anchor_of_offset in H.
  destruct (Js.split ":" (start sh)) as [|a [|b [|? ?]]] eqn:Ea; try discriminate.
  destruct (Js.split ":" (end_ sh)) as [|c [|d [|? ?]]] eqn:Ec; try discriminate.
  cbn [length Nat.eqb negb orb map nth] in H.
  pass_guard H. pass_guard H. pass_guard H.
  destruct (in_range_finite _ 23 G G3 G6) as (qa & Na & Ra).
  destruct (in_range_finite _ 59 G2 G7 G10) as (qb & Nb & Rb).
  destruct (in_range_finite _ 23 G1 G5 G4) as (qc & Nc & Rc).
  destruct (in_range_finite _ 59 G0 G9 G8) as (qd & Nd & Rd).
  rewrite Na, Nb, Nc, Nd in H.
  rewrite !setters_wall in H by assumption.
  exists sh, z, (Js.truncate qa * 60 + Js.truncate qb),
    (Js.truncate qc * 60 + Js.truncate qd).
  unfold minuteOfDay. rewrite Ea, Ec, Na, Nb, Nc, Nd.
  repeat (split; [first [reflexivity | assumption | lia]|]).
  injection H as Hr. subst r. cbn [from to].
  unfold anchorMidnight, isAfter.
  generalize (wall (anchor sh z sd now) / MS_DAY * MS_DAY). intros m.
  match goal with
  | |- context [if ?c then add_day _ _ else _] => destruct c eqn:Eafter
  end;
  [apply Z.ltb_lt in Eafter | apply Z.ltb_ge in Eafter];
  match goal with |- context [if ?c then _ else _] => destruct c eqn:Ecmp end;
  [apply Z.ltb_lt in Ecmp|apply Z.ltb_ge in Ecmp|apply Z.ltb_lt in Ecmp|apply Z.ltb_ge in Ecmp];
  unfold valueOf, utc, add_day, withWall in *; cbn [wall offset zone valid] in *;
  unfold valueOf in *; cbn [wall offset zone valid] in *;
  unfold MS_DAY, MS_HOUR, MS_MINUTE in *; lia.
Qed.

Lemma wellFormedTime_truthy (s : string) :
  wellFormedTime s = true -> Js.truthy s = true.
Proof.
  destruct s; [discriminate|reflexivity].
Qed.

Lemma wellFormedTime_minuteOfDay (s : string) :
  wellFormedTime s = true -> exists m, minuteOfDay s = Some m.
Proof.
  unfold wellFormedTime, minuteOfDay.
  destruct (Js.split ":" s) as [|a [|b [|? ?]]]; try discriminate.
  cbv zeta. intros H. repeat (apply andb_prop in H as [H ?]).
  destruct (Js.StringToNumber a); try discriminate.
  destruct (Js.StringToNumber b); try discriminate.
  eexists. reflexivity.
Qed.

(** Progress: a call on accepted inputs returns. *)
Lemma getShiftTimeRange_accepts (sh : Shift) (z : string) (sd : option string)
    (now : Z) :
  accepted sh z sd now = true ->
  exists r, getShiftTimeRange (Some sh) (Some z) sd now = Return r.
Proof.
  unfold accepted. intros H.
  apply andb_prop in H as [H Hwe]. apply andb_prop in H as [H Hws].
  apply andb_prop in H as [Hz Hv].
  unfold getShiftTimeRange.
  rewrite (wellFormedTime_truthy _ Hws), (wellFormedTime_truthy _ Hwe), Hz.
  cbn [negb orb].
  change (if supplied sd then tz_string now (stringOf sd) z else tz_now now z)
    with (baseDate z sd now).
  unfold isValid. rewrite Hv. cbn [negb].
  unfold wellFormedTime in Hws, Hwe.
  destruct (Js.split ":" (start sh)) as [|a [|b [|? ?]]]; try discriminate.
  destruct (Js.split ":" (end_ sh)) as [|c [|d [|? ?]]]; try discriminate.
  cbn [length Nat.eqb negb orb map nth].
  cbv zeta in Hws, Hwe.
  repeat match goal with
  | H : _ && _ = true |- _ => apply andb_prop in H as [? ?]
  | H : negb _ = true |- _ => apply Bool.negb_true_iff in H; rewrite H
  end.
  cbn [orb]. eexists. reflexivity.
Qed.

Lemma getShiftTimeRange_returns_accepted (shift : option Shift)
    (tz sd : option string) (now : Z) (r : TimeRange) :
  getShiftTimeRange shift tz sd now = Return r ->
  exists sh z, shift = Some sh /\ tz = Some z /\ accepted sh z sd now = true.
Proof.
  unfold getShiftTimeRange. intros H.
  destruct shift as [sh|]; [|discriminate].
  destruct (Js.truthy (start sh)) eqn:Hs; [|discriminate].
  destruct (Js.truthy (end_ sh)) eqn:He; [|discriminate].
  destruct tz as [z|]; [|discriminate].
  destruct (Js.truthy z) eqn:Hz; [|discriminate].
  cbn [negb orb] in H.
  change (if supplied sd then tz_string now (stringOf sd) z else tz_now now z)
    with (baseDate z sd now) in H.
  unfold isValid in H.
  destruct (valid (baseDate z sd now)) eqn:Hv; [|discriminate].
  cbn [negb] in H.
  exists sh, z. split; [reflexivity|]. split; [reflexivity|].
  unfold accepted, wellFormedTime. rewrite Hz, Hv.
  destruct (Js.split ":" (start sh)) as [|a [|b [|? ?]]]; try discriminate.
  destruct (Js.split ":" (end_ sh)) as [|c [|d [|? ?]]]; try discriminate.
  cbn [length Nat.eqb negb orb map nth] in H.
  pass_guard H. pass_guard H. pass_guard H.
  cbv zeta.
  repeat match goal with H : _ = false |- _ => rewrite H; clear H end.
  reflexivity.
Qed.

(** The shift and the date enter the result only through the start and end
    strings, the validity of the base date and the anchor. *)
Lemma getShiftTimeRange_anchor (sh sh' : Shift) (z : string)
    (sd sd' : option string) (now now' : Z) :
  start sh = start sh' -> end_ sh = end_ sh' ->
  valid (baseDate z sd now) = valid (baseDate z sd' now') ->
  anchor sh z sd now = anchor sh' z sd' now' ->
  getShiftTimeRange (Some sh) (Some z) sd now
  = getShiftTimeRange (Some sh') (Some z) sd' now'.
Proof.
  intros Hs He Hv Ha. unfold getShiftTimeRange.
  change (if supplied sd then tz_string now (stringOf sd) z else tz_now now z)
    with (baseDate z sd now).
  change (if supplied sd' then tz_string now' (stringOf sd') z else tz_now now' z)
    with (baseDate z sd' now').
  rewrite !anchor_of_offset. unfold isValid.
  rewrite Hs, He, Hv, Ha. reflexivity.
Qed.

(** With a date supplied, the clock enters the result only through the
    offset the zone observes at its reading. *)
Lemma getShiftTimeRange_guess (shift : option Shift) (z : string)
    (sd : option string) (now now' : Z) :
  supplied sd = true -> zoneOffset z now = zoneOffset z now' ->
  getShiftTimeRange shift (Some z) sd now
  = getShiftTimeRange shift (Some z) sd now'.
Proof.
  intros Hsd Ho. unfold getShiftTimeRange, tz_string. rewrite Hsd, Ho.
  reflexivity.
Qed.

End Resolution.

(** ** Running the sample facility *)

Lemma sample_offset_guess (z : string) (now : Z) :
  Sample.offsetAt z now = Sample.offsetAt z winterNoon \/
  Sample.offsetAt z now = Sample.offsetAt z summerNoon.
Proof.
  unfold Sample.offsetAt.
  destruct (String.eqb z "Europe/Warsaw"); [|left; reflexivity].
  unfold Sample.warsawOffset at 1 3.
  destruct (_ && _); [right|left]; reflexivity.
Qed.

(** Evaluates a call of the sample facility with a date supplied, whatever
    the clock reads. *)
Ltac sample_run z now :=
  let G := fresh "G" in
  destruct (sample_offset_guess z now) as [G|G];
  match goal with
  | |- context [getShiftTimeRange ?sh (Some z) ?sd now] =>
      rewrite (getShiftTimeRange_guess (TF := Sample.facility)
                 sh z sd now _ (eq_refl true) G)
  end;
  vm_compute; reflexivity.

Example night_warsaw (now : Z) :
  getShiftTimeRange (TF := Sample.facility)
    (Some (mkShift "Night" "22:00" "06:00" None))
    (Some "Europe/Warsaw") (Some "2025-01-15") now
  = Return {| from := civil 2025 1 15 21 0; to := civil 2025 1 16 5 0 |}.
Proof. sample_run "Europe/Warsaw" now. Qed.

Example day_utc (now : Z) :
  getShiftTimeRange (TF := Sample.facility)
    (Some (mkShift "Day" "10:00" "18:00" None))
    (Some "UTC") (Some "2025-01-15") now
  = Return {| from := civil 2025 1 15 10 0; to := civil 2025 1 15 18 0 |}.
Proof. sample_run "UTC" now. Qed.

Example next_day_shift (now : Z) :
  getShiftTimeRange (TF := Sample.facility)
    (Some (mkShift "Next Day Shift" "08:00" "16:00" (Some 1)))
    (Some "Europe/Warsaw") (Some "2025-01-15") now
  = Return {| from := civil 2025 1 16 7 0; to := civil 2025 1 16 15 0 |}.
Proof. sample_run "Europe/Warsaw" now. Qed.

Example missing_colon (now : Z) :
  getShiftTimeRange (TF := Sample.facility)
    (Some (mkShift "Invalid" "08" "16:00" None))
    (Some "UTC") (Some "2025-01-15") now
  = Throw InvalidTimeFormat.
Proof. sample_run "UTC" now. Qed.

(** An empty minute component converts to 0, and blanks around a component
    are ignored. *)
Example empty_minute (now : Z) :
  getShiftTimeRange (TF := Sample.facility)
    (Some (mkShift "Loose" "8:" " 16 : 30 " None))
    (Some "UTC") (Some "2025-01-15") now
  = Return {| from := civil 2025 1 15 8 0; to := civil 2025 1 15 16 30 |}.
Proof. sample_run "UTC" now. Qed.

Example three_components (now : Z) :
  getShiftTimeRange (TF := Sample.facility)
    (Some (mkShift "Seconds" "08:00:00" "16:00" None))
    (Some "UTC") (Some "2025-01-15") now
  = Throw InvalidTimeFormat.
Proof. sample_run "UTC" now. Qed.

Example no_shift (now : Z) :
  getShiftTimeRange (TF := Sample.facility) None
    (Some "UTC") (Some "2025-01-15") now
  = Throw InvalidShiftConfiguration.
Proof. reflexivity. Qed.

(** Without a date the anchor is the current day in the zone: at 23:30 UTC
    it is already the next day in Europe/Warsaw. *)
Example current_date_in_zone :
  getShiftTimeRange (TF := Sample.facility)
    (Some (mkShift "Morning" "08:00" "16:00" None))
    (Some "Europe/Warsaw") None (civil 2025 1 15 23 30)
  = Return {| from := civil 2025 1 16 7 0; to := civil 2025 1 16 15 0 |}.
Proof. vm_compute. reflexivity. Qed.

(** An empty date string counts as no date. *)
Example empty_date_is_no_date :
  getShiftTimeRange (TF := Sample.facility)
    (Some (mkShift "Morning" "08:00" "16:00" None))
    (Some "UTC") (Some "") winterNoon
  = getShiftTimeRange (TF := Sample.facility)
      (Some (mkShift "Morning" "08:00" "16:00" None))
      (Some "UTC") None winterNoon.
Proof. reflexivity. Qed.

Example missing_end (now : Z) :
  getShiftTimeRange (TF := Sample.facility)
    (Some (mkShift "Test" "08:00" "" None))
    (Some "UTC") (Some "2025-01-15") now
  = Throw InvalidShiftConfiguration.
Proof. reflexivity. Qed.

(** ** The overnight rule *)







(** ** Activity of a shift *)



(** A failure of the resolution is the failure of [isShiftActive]. *)
Lemma isShiftActive_propagates (TF : TimeFacility) (shift : option Shift)
    (tz sd : option string) (now : Z) (e : Thrown) :
  getShiftTimeRange shift tz sd now = Throw e ->
  isShiftActive shift tz sd now = Throw e.
Proof.
  intros H. unfold isShiftActive. now rewrite H.
Qed.

(** For a facility whose day comparison is exact, the gate is the equality
    of the selected civil day and the civil day of the current instant in
    the zone. *)
Lemma isShiftActive_civil_day (TF : TimeFacility) (shift : option Shift)
    (z d : string) (now : Z) (r : TimeRange) :
  (forall a, isSameDay a (tz_now now z) = (wall a / MS_DAY =? localDay z now)) ->
  Js.truthy d = true ->
  getShiftTimeRange shift (Some z) (Some d) now = Return r ->
  isShiftActive shift (Some z) (Some d) now
  = Return ((wall (tz_string now d z) / MS_DAY =? localDay z now)
            && ((from r <=? now) && (now <=? to r))).
Proof.
  intros Hsame Hd Hr. unfold isShiftActive. rewrite Hr.
  cbn [supplied stringOf]. rewrite Hd, Hsame.
  destruct (_ =? _); reflexivity.
Qed.

(** The sample comparison is exact in UTC. *)
Lemma sample_sameDay_utc (a : Dayjs) (now : Z) :
  zone a = "UTC" ->
  Sample.sameDay a (tz_now (TF := Sample.facility) now "UTC")
  = (wall a / MS_DAY =? localDay (TF := Sample.facility) "UTC" now).
Proof.
  intros Hz. unfold Sample.sameDay, localDay, tz_now, valueOf. rewrite Hz.
  cbn [zoneKnown zoneOffset Sample.facility Sample.known Sample.offsetAt
       String.eqb Ascii.eqb Bool.eqb orb wall offset].
  unfold MS_DAY, MS_MINUTE.
  destruct (Z.eqb_spec (wall a / 86400000) ((now + 0 * 60000) / 86400000)) as [E|E];
    [apply Bool.andb_true_iff; rewrite !Z.leb_le
    |apply Bool.andb_false_iff; rewrite !Z.leb_gt];
    Z.div_mod_to_equations; lia.
Qed.

(** Without a date only the interval decides. *)
Lemma isShiftActive_without_date (TF : TimeFacility) (shift : option Shift)
    (tz : option string) (now : Z) (r : TimeRange) :
  getShiftTimeRange shift tz None now = Return r ->
  isShiftActive shift tz None now
  = Return ((from r <=? now) && (now <=? to r)).
Proof.
  intros H. unfold isShiftActive. now rewrite H.
Qed.

Example active_today :
  isShiftActive (TF := Sample.facility)
    (Some (mkShift "Morning" "08:00" "16:00" None))
    (Some "UTC") (Some "2025-01-15") winterNoon = Return true.
Proof. vm_compute. reflexivity. Qed.

(** Yesterday's night shift still covers 02:00 of today, and is not active. *)
Example yesterday_not_active :
  getShiftTimeRange (TF := Sample.facility)
    (Some (mkShift "Night" "22:00" "06:00" None))
    (Some "UTC") (Some "2025-01-14") (civil 2025 1 15 2 0)
  = Return {| from := civil 2025 1 14 22 0; to := civil 2025 1 15 6 0 |} /\
  isShiftActive (TF := Sample.facility)
    (Some (mkShift "Night" "22:00" "06:00" None))
    (Some "UTC") (Some "2025-01-14") (civil 2025 1 15 2 0) = Return false.
Proof. split; vm_compute; reflexivity. Qed.

(** ** Reading the interval back in the zone *)

Section Reading.
Context {TF : TimeFacility}.

(** Where the zone observes, at the returned instants, the offset the
    anchor was created with, the instants read back as the start and end
    times on the anchor's civil day (the day after, for an end that wrapped). *)
Lemma roundtrip_when_offset_stable (sh : Shift) (z : string)
    (sd : option string) (now : Z) (r : TimeRange) (s e : Z) :
  getShiftTimeRange (Some sh) (Some z) sd now = Return r ->
  minuteOfDay (start sh) = Some s -> minuteOfDay (end_ sh) = Some e ->
  let a := anchor sh z sd now in
  let day := wall a / MS_DAY * MS_DAY in
  (zoneOffset z (from r) = offset a ->
     from r + zoneOffset z (from r) * MS_MINUTE = day + s * MS_MINUTE) /\
  (zoneOffset z (to r) = offset a ->
     to r + zoneOffset z (to r) * MS_MINUTE
     = day + e * MS_MINUTE + (if e <? s then MS_DAY else 0)).
Proof.
  intros Hr Hs He a day.
  destruct (getShiftTimeRange_returns _ _ _ _ _ Hr)
    as (sh' & z' & s' & e' & Esh & Ez & _ & _ & _ & _ & Hs' & He' & _ & _ & Hf & Ht).
  injection Esh as <-. injection Ez as <-.
  rewrite Hs in Hs'. rewrite He in He'. injection Hs' as <-. injection He' as <-.
  unfold anchorMidnight in Hf, Ht. fold a in Hf, Ht. fold day in Hf, Ht.
  split; intros Ho; rewrite Ho; lia.
Qed.

(** Where the advanced date resolves to the base date moved by [n] days,
    the offset [n] and the advanced date give one result. *)
Lemma dateOffset_as_advanced_date (sh : Shift) (z d d' : string) (n now : Z) :
  Js.truthy d = true -> Js.truthy d' = true ->
  dateOffset sh = Some n ->
  tz_string now d' z = add_day (tz_string now d z) n ->
  getShiftTimeRange (Some sh) (Some z) (Some d) now
  = getShiftTimeRange (Some (mkShift (name sh) (start sh) (end_ sh) None))
      (Some z) (Some d') now.
Proof.
  intros Hd Hd' Hn Hadv.
  apply getShiftTimeRange_anchor; try reflexivity.
  - unfold baseDate. cbn [supplied stringOf]. rewrite Hd, Hd', Hadv. reflexivity.
  - unfold anchor, baseDate. cbn [supplied stringOf dateOffset].
    rewrite Hn, Hd, Hd', Hadv. reflexivity.
Qed.

End Reading.

Example morning_warsaw_reads_back (now : Z) :
  exists r,
    getShiftTimeRange (TF := Sample.facility)
      (Some (mkShift "Morning" "08:00" "16:00" None))
      (Some "Europe/Warsaw") (Some "2025-01-15") now = Return r /\
    Sample.localReading "Europe/Warsaw" (from r) = civil 2025 1 15 8 0 /\
    Sample.localReading "Europe/Warsaw" (to r) = civil 2025 1 15 16 0.
Proof.
  exists {| from := civil 2025 1 15 7 0; to := civil 2025 1 15 15 0 |}.
  split; [sample_run "Europe/Warsaw" now|]. split; vm_compute; reflexivity.
Qed.

Example previous_day_shift_reads_back (now : Z) :
  exists r,
    getShiftTimeRange (TF := Sample.facility)
      (Some (mkShift "Previous Day Shift" "20:00" "04:00" (Some (-1))))
      (Some "Europe/Warsaw") (Some "2025-01-15") now = Return r /\
    Sample.localReading "Europe/Warsaw" (from r) = civil 2025 1 14 20 0 /\
    Sample.localReading "Europe/Warsaw" (to r) = civil 2025 1 15 4 0.
Proof.
  exists {| from := civil 2025 1 14 19 0; to := civil 2025 1 15 3 0 |}.
  split; [sample_run "Europe/Warsaw" now|]. split; vm_compute; reflexivity.
Qed.

Example previous_day_shift_as_advanced_date (now : Z) :
  getShiftTimeRange (TF := Sample.facility)
    (Some (mkShift "Previous Day Shift" "20:00" "04:00" (Some (-1))))
    (Some "Europe/Warsaw") (Some "2025-01-15") now
  = getShiftTimeRange (TF := Sample.facility)
      (Some (mkShift "Previous Day Shift" "20:00" "04:00" None))
      (Some "Europe/Warsaw") (Some "2025-01-14") now.
Proof.
  transitivity (Return {| from := civil 2025 1 14 19 0; to := civil 2025 1 15 3 0 |});
    [|symmetry]; sample_run "Europe/Warsaw" now.
Qed.

(** C3: on 2025-03-30, the day Europe/Warsaw moves its clocks forward at
    02:00, the shift '08:00' to '16:00' resolves to 07:00 and 15:00 UTC: the
    base date was created at midnight with the winter offset and the
    setters keep it.  Read back in Europe/Warsaw the two instants are 09:00
    and 17:00, not the shift's 08:00 and 16:00. *)
Theorem roundtrip_breaks_on_transition_day (now : Z) :
  getShiftTimeRange (TF := Sample.facility)
    (Some (mkShift "Morning" "08:00" "16:00" None))
    (Some "Europe/Warsaw") (Some "2025-03-30") now
  = Return {| from := civil 2025 3 30 7 0; to := civil 2025 3 30 15 0 |}
  /\ Sample.localReading "Europe/Warsaw" (civil 2025 3 30 7 0) = civil 2025 3 30 9 0
  /\ Sample.localReading "Europe/Warsaw" (civil 2025 3 30 15 0) = civil 2025 3 30 17 0
  /\ civil 2025 3 30 9 0 <> civil 2025 3 30 8 0.
Proof.
  split; [sample_run "Europe/Warsaw" now|].
  repeat split; try (vm_compute; reflexivity). discriminate.
Qed.

(** C4: on 2025-03-30 in Europe/Warsaw the shift '08:00' to '16:00' with
    [dateOffset = 1] resolves to 2025-03-31 07:00 UTC (the winter offset of
    the base date is kept across the added day), while the same shift
    without offset on 2025-03-31 resolves to 06:00 UTC. *)
Theorem dateOffset_differs_across_transition (now : Z) :
  getShiftTimeRange (TF := Sample.facility)
    (Some (mkShift "Morning" "08:00" "16:00" (Some 1)))
    (Some "Europe/Warsaw") (Some "2025-03-30") now
  = Return {| from := civil 2025 3 31 7 0; to := civil 2025 3 31 15 0 |}
  /\
  getShiftTimeRange (TF := Sample.facility)
    (Some (mkShift "Morning" "08:00" "16:00" None))
    (Some "Europe/Warsaw") (Some "2025-03-31") now
  = Return {| from := civil 2025 3 31 6 0; to := civil 2025 3 31 14 0 |}
  /\ civil 2025 3 31 7 0 <> civil 2025 3 31 6 0.
Proof.
  split; [sample_run "Europe/Warsaw" now|].
  split; [sample_run "Europe/Warsaw" now|]. discriminate.
Qed.

(** ** Validation *)

Lemma lt_integer (q : Q) (n k : Z) :
  (q == inject_Z n)%Q -> Js.lt (Js.Finite q) k = (n <? k).
Proof.
  intros E. unfold Js.lt. destruct (Z.ltb_spec n k).
  - apply Bool.negb_true_iff, Bool.not_true_iff_false.
    rewrite Qle_bool_iff, E, <- Zle_Qle. lia.
  - apply Bool.negb_false_iff. rewrite Qle_bool_iff, E, <- Zle_Qle. lia.
Qed.

Lemma gt_integer (q : Q) (n k : Z) :
  (q == inject_Z n)%Q -> Js.gt (Js.Finite q) k = (k <? n).
Proof.
  intros E. unfold Js.gt. destruct (Z.ltb_spec k n).
  - apply Bool.negb_true_iff, Bool.not_true_iff_false.
    rewrite Qle_bool_iff, E, <- Zle_Qle. lia.
  - apply Bool.negb_false_iff. rewrite Qle_bool_iff, E, <- Zle_Qle. lia.
Qed.

Lemma split_two_truthy (s a b : string) :
  Js.split ":" s = [a; b] -> Js.truthy s = true.
Proof.
  destruct s; [discriminate|reflexivity].
Qed.

Section Validation.
Context {TF : TimeFacility}.

(** Past the shift, zone and base date checks, with both strings split in
    two, the call is the chain of the value, hour and minute checks. *)
Lemma getShiftTimeRange_time_checks (sh : Shift) (z : string)
    (sd : option string) (now : Z) (a b c d : string) :
  Js.truthy z = true -> valid (baseDate z sd now) = true ->
  Js.split ":" (start sh) = [a; b] -> Js.split ":" (end_ sh) = [c; d] ->
  let startHour := Js.StringToNumber a in
  let startMin := Js.StringToNumber b in
  let endHour := Js.StringToNumber c in
  let endMin := Js.StringToNumber d in
  exists k,
    getShiftTimeRange (Some sh) (Some z) sd now
    = (throwIf Js.isNaN startHour || Js.isNaN startMin
               || Js.isNaN endHour || Js.isNaN endMin
         then InvalidTimeValues ;;
       throwIf Js.lt startHour 0 || Js.gt startHour 23
               || Js.lt endHour 0 || Js.gt endHour 23
         then InvalidHourValues ;;
       throwIf Js.lt startMin 0 || Js.gt startMin 59
               || Js.lt endMin 0 || Js.gt endMin 59
         then InvalidMinuteValues ;;
       Return k).
Proof.
  intros Hz Hv Ea Ec. cbv zeta. unfold getShiftTimeRange.
  rewrite (split_two_truthy _ _ _ Ea), (split_two_truthy _ _ _ Ec), Hz.
  cbn [negb orb].
  change (if supplied sd then tz_string now (stringOf sd) z else tz_now now z)
    with (baseDate z sd now).
  unfold isValid. rewrite Hv, Ea, Ec.
  cbn [length Nat.eqb negb orb map nth].
  eexists. reflexivity.
Qed.

(** Before the time strings are read: a zone argument that is not a
    non-empty string, then a base date that is not valid. *)
Lemma getShiftTimeRange_unresolvable (sh : Shift) (tz sd : option string)
    (now : Z) :
  Js.truthy (start sh) = true -> Js.truthy (end_ sh) = true ->
  resolvable tz sd now = false ->
  getShiftTimeRange (Some sh) tz sd now
  = Throw (match tz with
           | Some z => if Js.truthy z then InvalidTimezoneOrDate else InvalidTimezone
           | None => InvalidTimezone
           end).
Proof.
  intros Hs He Hr. unfold getShiftTimeRange. rewrite Hs, He. cbn [negb orb].
  destruct tz as [z|]; [|reflexivity].
  unfold resolvable in Hr. destruct (Js.truthy z); [|reflexivity].
  cbn [negb andb] in *.
  change (if supplied sd then tz_string now (stringOf sd) z else tz_now now z)
    with (baseDate z sd now).
  unfold isValid. rewrite Hr. reflexivity.
Qed.

Lemma baseDate_invalid (z : string) (sd : option string) (now : Z) :
  zoneKnown z = false \/ (supplied sd = true /\ parseDate (stringOf sd) = None) ->
  valid (baseDate z sd now) = false.
Proof.
  unfold baseDate, tz_string, tz_now.
  intros [Hk | [Hs Hp]].
  - rewrite Hk. now destruct (supplied sd).
  - rewrite Hs, Hp. now destruct (zoneKnown z).
Qed.

End Validation.

Example hour_25 (now : Z) :
  getShiftTimeRange (TF := Sample.facility)
    (Some (mkShift "Invalid Hour" "25:00" "16:00" None))
    (Some "UTC") (Some "2025-01-15") now = Throw InvalidHourValues.
Proof. sample_run "UTC" now. Qed.

Example minute_60 (now : Z) :
  getShiftTimeRange (TF := Sample.facility)
    (Some (mkShift "Invalid Minutes" "08:60" "16:00" None))
    (Some "UTC") (Some "2025-01-15") now = Throw InvalidMinuteValues.
Proof. sample_run "UTC" now. Qed.

(** C6: past the earlier checks (a non-empty zone string, a valid base
    date) and with both strings split in two components that convert to
    integers, an hour outside [0,23] makes the call fail with
    InvalidHourError, and with both hours in range a minute outside [0,59]
    makes it fail with InvalidMinuteError; start '25:00' and start '08:60'
    in UTC on 2025-01-15 are the two scenarios. *)
Theorem hour_then_minute_range_errors :
  (forall (TF : TimeFacility) (sh : Shift) (z : string) (sd : option string)
          (now : Z) (a b c d : string) (h1 m1 h2 m2 : Z),
      Js.truthy z = true -> valid (baseDate z sd now) = true ->
      Js.split ":" (start sh) = [a; b] -> Js.split ":" (end_ sh) = [c; d] ->
      denotesInteger a h1 -> denotesInteger b m1 ->
      denotesInteger c h2 -> denotesInteger d m2 ->
      ((h1 < 0 \/ 23 < h1 \/ h2 < 0 \/ 23 < h2) ->
         exists e, getShiftTimeRange (Some sh) (Some z) sd now = Throw e /\
                   kindOf e = InvalidHourError) /\
      (0 <= h1 <= 23 -> 0 <= h2 <= 23 ->
       (m1 < 0 \/ 59 < m1 \/ m2 < 0 \/ 59 < m2) ->
         exists e, getShiftTimeRange (Some sh) (Some z) sd now = Throw e /\
                   kindOf e = InvalidMinuteError))
  /\
  (forall now : Z,
      exists e,
        getShiftTimeRange (TF := Sample.facility)
          (Some (mkShift "Invalid Hour" "25:00" "16:00" None))
          (Some "UTC") (Some "2025-01-15") now = Throw e /\
        kindOf e = InvalidHourError)
  /\
  (forall now : Z,
      exists e,
        getShiftTimeRange (TF := Sample.facility)
          (Some (mkShift "Invalid Minutes" "08:60" "16:00" None))
          (Some "UTC") (Some "2025-01-15") now = Throw e /\
        kindOf e = InvalidMinuteError).
Proof.
  split; [|split].
  - intros TF sh z sd now a b c d h1 m1 h2 m2 Hz Hv Ea Ec
      (qa & Na & Qa) (qb & Nb & Qb) (qc & Nc & Qc) (qd & Nd & Qd).
    destruct (getShiftTimeRange_time_checks sh z sd now a b c d Hz Hv Ea Ec)
      as [k Hk].
    cbv zeta in Hk. rewrite Hk, Na, Nb, Nc, Nd. cbn [Js.isNaN orb].
    rewrite (lt_integer _ _ _ Qa), (gt_integer _ _ _ Qa),
      (lt_integer _ _ _ Qc), (gt_integer _ _ _ Qc),
      (lt_integer _ _ _ Qb), (gt_integer _ _ _ Qb),
      (lt_integer _ _ _ Qd), (gt_integer _ _ _ Qd).
    split.
    + intros Hh. exists InvalidHourValues. split; [|reflexivity].
      destruct (Z.ltb_spec h1 0), (Z.ltb_spec 23 h1), (Z.ltb_spec h2 0),
        (Z.ltb_spec 23 h2); try reflexivity; lia.
    + intros H1 H2 Hm. exists InvalidMinuteValues. split; [|reflexivity].
      destruct (Z.ltb_spec h1 0), (Z.ltb_spec 23 h1), (Z.ltb_spec h2 0),
        (Z.ltb_spec 23 h2); try lia. cbn [orb].
      destruct (Z.ltb_spec m1 0), (Z.ltb_spec 59 m1), (Z.ltb_spec m2 0),
        (Z.ltb_spec 59 m2); try reflexivity; lia.
  - intros now. eexists. split; [apply hour_25 | reflexivity].
  - intros now. eexists. split; [apply minute_60 | reflexivity].
Qed.

Lemma hour_then_minute_range_errors_witness :
  Js.truthy "UTC" = true /\
  valid (baseDate (TF := Sample.facility) "UTC" (Some "2025-01-15") winterNoon) = true /\
  Js.split ":" "25:00" = ["25"; "00"] /\ Js.split ":" "16:00" = ["16"; "00"] /\
  denotesInteger "25" 25 /\ denotesInteger "00" 0 /\ denotesInteger "16" 16 /\
  exists e,
    getShiftTimeRange (TF := Sample.facility)
      (Some (mkShift "Invalid Hour" "25:00" "16:00" None))
      (Some "UTC") (Some "2025-01-15") winterNoon = Throw e /\
    kindOf e = InvalidHourError.
Proof.
  assert (D25 : denotesInteger "25" 25) by (eexists; split; reflexivity).
  assert (D00 : denotesInteger "00" 0) by (eexists; split; reflexivity).
  assert (D16 : denotesInteger "16" 16) by (eexists; split; reflexivity).
  repeat (split; [first [reflexivity | assumption]|]).
  apply (proj1 (proj1 hour_then_minute_range_errors Sample.facility
                  (mkShift "Invalid Hour" "25:00" "16:00" None) "UTC"
                  (Some "2025-01-15") winterNoon "25" "00" "16" "00" 25 0 16 0
                  eq_refl eq_refl eq_refl eq_refl D25 D00 D16 D00)).
  right. left. lia.
Defined.

Example empty_timezone (now : Z) :
  getShiftTimeRange (TF := Sample.facility)
    (Some (mkShift "Morning" "08:00" "16:00" None))
    (Some "") (Some "2025-01-15") now = Throw InvalidTimezone.
Proof. reflexivity. Qed.

Example unknown_zone (now : Z) :
  getShiftTimeRange (TF := Sample.facility)
    (Some (mkShift "Morning" "08:00" "16:00" None))
    (Some "Mars/Olympus") (Some "2025-01-15") now = Throw InvalidTimezoneOrDate.
Proof. reflexivity. Qed.

Example unreadable_date (now : Z) :
  getShiftTimeRange (TF := Sample.facility)
    (Some (mkShift "Morning" "08:00" "16:00" None))
    (Some "UTC") (Some "tomorrow") now = Throw InvalidTimezoneOrDate.
Proof. reflexivity. Qed.



(** C8, as stated, fails: the fractional hour '8.5' is not rejected; the
    call returns, the hour being truncated to 8. *)
Lemma fractional_component_accepted :
  Js.split ":" "8.5:00" = ["8.5"; "00"] /\
  Js.StringToNumber "8.5" = Js.Finite (85 # 10) /\
  getShiftTimeRange (TF := Sample.facility)
    (Some (mkShift "Half" "8.5:00" "16:00" None))
    (Some "UTC") (Some "2025-01-15") winterNoon
  = Return {| from := civil 2025 1 15 8 0; to := civil 2025 1 15 16 0 |}.
Proof.
  repeat split; vm_compute; reflexivity.
Qed.

(** C8, amended: past the earlier checks and with both strings split in
    two components, the call fails with InvalidTimeValueError whenever one
    of the four components converts to NaN. *)
Theorem nan_component_rejected (TF : TimeFacility) (sh : Shift) (z : string)
    (sd : option string) (now : Z) (a b c d : string) :
  Js.truthy z = true -> valid (baseDate z sd now) = true ->
  Js.split ":" (start sh) = [a; b] -> Js.split ":" (end_ sh) = [c; d] ->
  Js.isNaN (Js.StringToNumber a) = true \/ Js.isNaN (Js.StringToNumber b) = true \/
  Js.isNaN (Js.StringToNumber c) = true \/ Js.isNaN (Js.StringToNumber d) = true ->
  exists e, getShiftTimeRange (Some sh) (Some z) sd now = Throw e /\
            kindOf e = InvalidTimeValueError.
Proof.
  intros Hz Hv Ea Ec Hnan.
  destruct (getShiftTimeRange_time_checks sh z sd now a b c d Hz Hv Ea Ec)
    as [k Hk].
  cbv zeta in Hk. rewrite Hk.
  exists InvalidTimeValues. split; [|reflexivity].
  destruct Hnan as [H | [H | [H | H]]]; rewrite H;
    rewrite ?Bool.orb_true_r; reflexivity.
Qed.

Lemma nan_component_rejected_witness :
  Js.truthy "UTC" = true /\
  valid (baseDate (TF := Sample.facility) "UTC" (Some "2025-01-15") winterNoon) = true /\
  Js.split ":" "ab:00" = ["ab"; "00"] /\ Js.split ":" "16:00" = ["16"; "00"] /\
  Js.isNaN (Js.StringToNumber "ab") = true /\
  exists e,
    getShiftTimeRange (TF := Sample.facility)
      (Some (mkShift "Letters" "ab:00" "16:00" None))
      (Some "UTC") (Some "2025-01-15") winterNoon = Throw e /\
    kindOf e = InvalidTimeValueError.
Proof.
  repeat (split; [reflexivity|]).
  apply (nan_component_rejected Sample.facility
           (mkShift "Letters" "ab:00" "16:00" None) "UTC" (Some "2025-01-15")
           winterNoon "ab" "00" "16" "00" eq_refl eq_refl eq_refl eq_refl).
  left. reflexivity.
Defined.



(** C10: two shifts with the same start, end and date offset, whatever
    their names, give the same outcome of [getShiftTimeRange] (the same
    interval or the same failure) and of [isShiftActive], for every zone
    argument, date and clock reading. *)
Theorem name_is_never_read (TF : TimeFacility) (sh sh' : Shift)
    (tz sd : option string) (now : Z) :
  start sh = start sh' -> end_ sh = end_ sh' ->
  dateOffset sh = dateOffset sh' ->
  getShiftTimeRange (Some sh) tz sd now = getShiftTimeRange (Some sh') tz sd now /\
  isShiftActive (Some sh) tz sd now = isShiftActive (Some sh') tz sd now.
Proof.
  intros Hs He Ho.
  assert (H : getShiftTimeRange (Some sh) tz sd now
              = getShiftTimeRange (Some sh') tz sd now).
  { unfold getShiftTimeRange. rewrite Hs, He, Ho. reflexivity. }
  split; [exact H|]. unfold isShiftActive. rewrite H. reflexivity.
Qed.

Lemma name_is_never_read_witness :
  getShiftTimeRange (TF := Sample.facility)
    (Some (mkShift "Night" "22:00" "06:00" None))
    (Some "Europe/Warsaw") (Some "2025-01-15") winterNoon
  = getShiftTimeRange (TF := Sample.facility)
      (Some (mkShift "Nocna zmiana" "22:00" "06:00" None))
      (Some "Europe/Warsaw") (Some "2025-01-15") winterNoon /\
  isShiftActive (TF := Sample.facility)
    (Some (mkShift "Night" "22:00" "06:00" None))
    (Some "Europe/Warsaw") (Some "2025-01-15") winterNoon
  = isShiftActive (TF := Sample.facility)
      (Some (mkShift "Nocna zmiana" "22:00" "06:00" None))
      (Some "Europe/Warsaw") (Some "2025-01-15") winterNoon.
Proof.
  apply (name_is_never_read Sample.facility
           (mkShift "Night" "22:00" "06:00" None)
           (mkShift "Nocna zmiana" "22:00" "06:00" None)
           (Some "Europe/Warsaw") (Some "2025-01-15") winterNoon
           eq_refl eq_refl eq_refl).
Defined.

(** * Further properties of the time logic *)

Section Acceptance.
Context {TF : TimeFacility}.

(** The checks do not look at the date offset or the name: a failure is
    the same for two shifts with the same start and end. *)
Lemma getShiftTimeRange_throw_same_times (sh sh' : Shift) (tz sd : option string)
    (now : Z) (e : Thrown) :
  start sh = start sh' -> end_ sh = end_ sh' ->
  getShiftTimeRange (Some sh) tz sd now = Throw e ->
  getShiftTimeRange (Some sh') tz sd now = Throw e.
Proof.
  intros Hs He H. unfold getShiftTimeRange in *. rewrite <- Hs, <- He.
  destruct tz as [z|]; cbv zeta in *;
    repeat match type of H with
    | (if ?c then _ else _) = _ => destruct c; [exact H|]
    end;
    first [exact H | discriminate H].
Qed.

Lemma accepted_same_times (sh sh' : Shift) (z : string) (sd : option string)
    (now : Z) :
  start sh = start sh' -> end_ sh = end_ sh' ->
  accepted sh z sd now = accepted sh' z sd now.
Proof.
  intros Hs He. unfold accepted. now rewrite Hs, He.
Qed.

Lemma anchorMidnight_offset (sh : Shift) (z : string) (sd : option string)
    (now d : Z) :
  dateOffset sh = Some d ->
  anchorMidnight sh z sd now
  = wall (baseDate z sd now) / MS_DAY * MS_DAY
    - offset (baseDate z sd now) * MS_MINUTE + d * MS_DAY.
Proof.
  intros Hd. unfold anchorMidnight, anchor. rewrite Hd.
  unfold add_day, withWall. cbn [wall offset].
  unfold MS_DAY. rewrite Z.div_add by lia. lia.
Qed.

Lemma anchorMidnight_no_offset (sh : Shift) (z : string) (sd : option string)
    (now : Z) :
  dateOffset sh = None ->
  anchorMidnight sh z sd now
  = wall (baseDate z sd now) / MS_DAY * MS_DAY
    - offset (baseDate z sd now) * MS_MINUTE.
Proof.
  intros Hd. unfold anchorMidnight, anchor. now rewrite Hd.
Qed.

End Acceptance.


(** X2: the shift check comes first: a missing shift object, or an empty
    (or missing) start or end, fails with the shift error whatever the zone
    argument and the date are. *)
Theorem shift_check_comes_first (TF : TimeFacility) (shift : option Shift)
    (tz sd : option string) (now : Z) :
  match shift with
  | None => True
  | Some sh => start sh = "" \/ end_ sh = ""
  end ->
  getShiftTimeRange shift tz sd now = Throw InvalidShiftConfiguration /\
  kindOf InvalidShiftConfiguration = InvalidShiftError.
Proof.
  intros H. split; [|reflexivity]. unfold getShiftTimeRange.
  destruct shift as [sh|]; [|reflexivity].
  destruct H as [-> | ->]; cbn [Js.truthy negb orb]; [reflexivity|].
  now rewrite Bool.orb_true_r.
Qed.

Lemma shift_check_comes_first_witness :
  getShiftTimeRange (TF := Sample.facility)
    (Some (mkShift "Test" "08:00" "" None)) None (Some "tomorrow") winterNoon
  = Throw InvalidShiftConfiguration /\
  kindOf InvalidShiftConfiguration = InvalidShiftError.
Proof.
  apply (shift_check_comes_first Sample.facility
           (Some (mkShift "Test" "08:00" "" None)) None (Some "tomorrow")
           winterNoon).
  right. reflexivity.
Defined.

(** X3: past the shift, zone and date checks, a start or an end that does
    not split at ':' into exactly two components fails with the format
    error, whatever the components hold. *)
Theorem format_check_precedes_value_checks (TF : TimeFacility) (sh : Shift)
    (z : string) (sd : option string) (now : Z) :
  Js.truthy (start sh) = true -> Js.truthy (end_ sh) = true ->
  resolvable (Some z) sd now = true ->
  length (Js.split ":" (start sh)) <> 2%nat \/
  length (Js.split ":" (end_ sh)) <> 2%nat ->
  getShiftTimeRange (Some sh) (Some z) sd now = Throw InvalidTimeFormat /\
  kindOf InvalidTimeFormat = InvalidTimeFormatError.
Proof.
  intros Hs He Hr Hlen. split; [|reflexivity].
  unfold resolvable in Hr. apply andb_prop in Hr as [Hz Hv].
  unfold getShiftTimeRange. rewrite Hs, He, Hz. cbn [negb orb].
  change (if supplied sd then tz_string now (stringOf sd) z else tz_now now z)
    with (baseDate z sd now).
  unfold isValid. rewrite Hv. cbn [negb]. cbv zeta.
  destruct Hlen as [H | H]; apply Nat.eqb_neq in H; rewrite H;
    cbn [negb orb]; [reflexivity|].
  now rewrite Bool.orb_true_r.
Qed.

Lemma format_check_precedes_value_checks_witness :
  Js.truthy "xx" = true /\ Js.truthy "16:00:00" = true /\
  resolvable (TF := Sample.facility) (Some "UTC") (Some "2025-01-15") winterNoon = true /\
  length (Js.split ":" "xx") <> 2%nat /\
  getShiftTimeRange (TF := Sample.facility)
    (Some (mkShift "Odd" "xx" "16:00:00" None))
    (Some "UTC") (Some "2025-01-15") winterNoon = Throw InvalidTimeFormat.
Proof.
  assert (Hl : length (Js.split ":" "xx") <> 2%nat) by discriminate.
  repeat (split; [first [reflexivity | assumption]|]).
  apply (format_check_precedes_value_checks Sample.facility
           (mkShift "Odd" "xx" "16:00:00" None) "UTC" (Some "2025-01-15")
           winterNoon eq_refl eq_refl eq_refl (or_introl Hl)).
Defined.







(** X7: [isShiftActive] fails exactly as [getShiftTimeRange] fails, with
    the same error, and returns a boolean exactly when it returns an
    interval. *)
Theorem isShiftActive_fails_as_resolution (TF : TimeFacility)
    (shift : option Shift) (tz sd : option string) (now : Z) :
  (forall e, isShiftActive shift tz sd now = Throw e
             <-> getShiftTimeRange shift tz sd now = Throw e) /\
  ((exists b, isShiftActive shift tz sd now = Return b)
   <-> exists r, getShiftTimeRange shift tz sd now = Return r).
Proof.
  unfold isShiftActive.
  destruct (getShiftTimeRange shift tz sd now) as [r|e0].
  - split.
    + intros e. destruct (supplied sd); [destruct (isSameDay _ _)|];
        split; discriminate.
    + split; [intros _; eexists; reflexivity|].
      intros _. destruct (supplied sd); [destruct (isSameDay _ _)|];
        eexists; reflexivity.
  - split; [intros e; split; intros H; injection H as ->; reflexivity|].
    split; intros [x H]; discriminate H.
Qed.

Section Today.
Context {TF : TimeFacility}.

(** Without a date, a valid base date is the current instant read in the
    zone. *)
Lemma baseDate_now (z : string) (now : Z) :
  valid (baseDate z None now) = true ->
  baseDate z None now
  = {| wall := now + zoneOffset z now * MS_MINUTE; offset := zoneOffset z now;
       zone := z; valid := true |}.
Proof.
  unfold baseDate, tz_now. cbn [supplied].
  destruct (zoneKnown z); [reflexivity|discriminate].
Qed.

(** Without a date, the interval and the current instant, counted from the
    midnight that began the current day in the zone. *)
Lemma resolution_from_today (sh : Shift) (z : string) (now s e : Z) :
  accepted sh z None now = true ->
  minuteOfDay (start sh) = Some s -> minuteOfDay (end_ sh) = Some e ->
  exists r m,
    getShiftTimeRange (Some sh) (Some z) None now = Return r /\
    now = m + (now + zoneOffset z now * MS_MINUTE) mod MS_DAY /\
    0 <= s < 1440 /\ 0 <= e < 1440 /\
    from r = m + Editor.offsetOf sh * MS_DAY + s * MS_MINUTE /\
    to r = m + Editor.offsetOf sh * MS_DAY + e * MS_MINUTE
           + (if e <? s then MS_DAY else 0).
Proof.
  intros Ha Hs He.
  destruct (getShiftTimeRange_accepts sh z None now Ha) as [r Hr].
  destruct (getShiftTimeRange_returns _ _ _ _ _ Hr)
    as (sh0 & z0 & s' & e' & Esh & Ez & _ & _ & _ & Hv & Hs' & He' & Rs & Re & Hf & Ht).
  injection Esh as <-. injection Ez as <-.
  rewrite Hs in Hs'. rewrite He in He'. injection Hs' as <-. injection He' as <-.
  exists r, ((now + zoneOffset z now * MS_MINUTE) / MS_DAY * MS_DAY
             - zoneOffset z now * MS_MINUTE).
  split; [exact Hr|].
  assert (Hm : anchorMidnight sh z None now
               = (now + zoneOffset z now * MS_MINUTE) / MS_DAY * MS_DAY
                 - zoneOffset z now * MS_MINUTE + Editor.offsetOf sh * MS_DAY).
  { unfold Editor.offsetOf. destruct (dateOffset sh) as [d|] eqn:Hd.
    - rewrite (anchorMidnight_offset sh z None now d Hd), (baseDate_now z now Hv).
      reflexivity.
    - rewrite (anchorMidnight_no_offset sh z None now Hd), (baseDate_now z now Hv).
      cbn [wall offset]. lia. }
  rewrite Hm in Hf, Ht.
  split; [|repeat split; lia].
  remember (now + zoneOffset z now * MS_MINUTE) as w eqn:Hw.
  unfold MS_DAY, MS_MINUTE in *. Z.div_mod_to_equations. lia.
Qed.

End Today.





(** * The panel *)

Lemma toLowerCase_app (a b : string) :
  Panel.toLowerCase (a ++ b) = Panel.toLowerCase a ++ Panel.toLowerCase b.
Proof.
  induction a as [|c a IH]; cbn; [reflexivity|]. now rewrite IH.
Qed.

Lemma prefix_app (p b : string) : String.prefix p (p ++ b) = true.
Proof.
  induction p as [|c p IH]; cbn.
  - now destruct b.
  - destruct (ascii_dec c c) as [_|N]; [exact IH | now elim N].
Qed.

Lemma includes_prefix (s p : string) :
  String.prefix p s = true -> Panel.includes s p = true.
Proof.
  intros H. destruct s; cbn [Panel.includes]; now rewrite H.
Qed.

Lemma includes_app_l (a s p : string) :
  Panel.includes s p = true -> Panel.includes (a ++ s) p = true.
Proof.
  intros H. induction a as [|c a IH]; cbn; [exact H|].
  rewrite IH. apply Bool.orb_true_r.
Qed.

Lemma includes_infix (a p b : string) : Panel.includes (a ++ p ++ b) p = true.
Proof.
  apply includes_app_l, includes_prefix, prefix_app.
Qed.

(** X10: a name that holds 'morning' or 'day' anywhere, in any mix of
    upper and lower case, gets the sun icon, whatever else it holds
    ('Friday Night', 'Weekend Day'). *)
Theorem getShiftIcon_day_wins (pre kw post : string) :
  Panel.toLowerCase kw = "morning" \/ Panel.toLowerCase kw = "day" ->
  Panel.getShiftIcon (pre ++ kw ++ post) = "sun".
Proof.
  intros H. unfold Panel.getShiftIcon. cbv zeta.
  rewrite !toLowerCase_app.
  destruct H as [-> | ->]; rewrite includes_infix; [reflexivity|].
  now rewrite Bool.orb_true_r.
Qed.

Lemma getShiftIcon_day_wins_witness :
  Panel.toLowerCase "DAY" = "day" /\
  Panel.getShiftIcon ("Fri" ++ "DAY" ++ " Night") = "sun".
Proof.
  split; [reflexivity|].
  apply (getShiftIcon_day_wins "Fri" "DAY" " Night"). right. reflexivity.
Defined.

(** X11: the icon is one of five; it is the moon exactly for a name
    that holds 'night' and none of 'morning', 'day', 'evening' and
    'afternoon', and the calendar exactly for a name that holds 'weekend'
    and none of the five other words. *)
Theorem getShiftIcon_by_keywords (shiftName : string) :
  let has := Panel.includes (Panel.toLowerCase shiftName) in
  In (Panel.getShiftIcon shiftName)
     ["sun"; "cloud"; "moon"; "calendar-alt"; "clock-nine"] /\
  (Panel.getShiftIcon shiftName = "moon" <->
   has "night" = true /\ has "morning" = false /\ has "day" = false /\
   has "evening" = false /\ has "afternoon" = false) /\
  (Panel.getShiftIcon shiftName = "calendar-alt" <->
   has "weekend" = true /\ has "night" = false /\ has "morning" = false /\
   has "day" = false /\ has "evening" = false /\ has "afternoon" = false).
Proof.
  cbv zeta. unfold Panel.getShiftIcon. cbv zeta.
  generalize (Panel.includes (Panel.toLowerCase shiftName)). intros has.
  destruct (has "morning"), (has "day"), (has "evening"), (has "afternoon"),
    (has "night"), (has "weekend"); cbn [orb In];
    (split; [tauto|]);
    split; split; first [discriminate | intuition discriminate | intuition].
Qed.

Section PanelHandlers.
Context {TF : TimeFacility}.

Lemma messageOf_truthy (e : Thrown) (sh : Shift) (tz : string)
    (sd : option string) :
  exists c m, messageOf e sh tz sd = String c m.
Proof.
  destruct e; cbn; eexists; eexists; reflexivity.
Qed.

End PanelHandlers.




(** X14: after a successful click, in button mode, a button is shown
    pressed exactly when its shift has the name of the clicked shift: the
    clicked button is pressed, and so is every other shift of that name. *)
Theorem buttons_pressed_by_name (TF : TimeFacility) (o : Panel.SimpleOptions)
    (now : Z) (sh t : Shift) (l : list Shift) (st : Panel.State)
    (log : list TimeRange) (r : TimeRange) :
  Panel.shifts o = Some (t :: l) ->
  Panel.displayMode o = Panel.ButtonsMode ->
  getShiftTimeRange (Some sh) (Some (Panel.timezoneOf o))
    (Some (Panel.selectedDate st)) now = Return r ->
  exists buttons,
    Panel.render o (fst (Panel.onShiftClick o now sh st log))
    = Panel.ButtonsView (Panel.showDatePickerOf o) buttons /\
    map Panel.buttonShift buttons = t :: l /\
    forall b, In b buttons ->
      (Panel.pressed b = true <-> name (Panel.buttonShift b) = name sh).
Proof.
  intros Hl Hm Hcall. unfold Panel.onShiftClick. rewrite Hcall. cbn [fst].
  unfold Panel.render. rewrite Hl, Hm. cbn [Panel.error].
  eexists. split; [reflexivity|]. split.
  - rewrite map_map. cbn [Panel.shiftButton Panel.buttonShift]. apply map_id.
  - intros b Hb. apply in_map_iff in Hb as (x & <- & _).
    cbn [Panel.shiftButton Panel.pressed Panel.buttonShift].
    unfold Panel.isSelected. cbn [Panel.selectedShift].
    rewrite String.eqb_eq. split; congruence.
Qed.

Lemma buttons_pressed_by_name_witness :
  let twin := mkShift "Day" "14:00" "22:00" None in
  let sh := mkShift "Day" "06:00" "14:00" None in
  let o := Panel.mkOptions (Some [sh; twin]) Panel.ButtonsMode None (Some "UTC") in
  let st := Panel.mkState "2025-01-15" None None in
  exists buttons,
    Panel.render o (fst (Panel.onShiftClick (TF := Sample.facility) o
                           winterNoon sh st []))
    = Panel.ButtonsView true buttons /\
    map Panel.pressed buttons = [true; true].
Proof.
  intros twin sh o st.
  destruct (buttons_pressed_by_name Sample.facility o winterNoon sh sh [twin]
              st [] {| from := civil 2025 1 15 6 0; to := civil 2025 1 15 14 0 |}
              eq_refl eq_refl eq_refl) as (buttons & Hv & _ & _).
  exists buttons. split; [exact Hv|].
  assert (Hb : Panel.ButtonsView true buttons
               = Panel.render o (fst (Panel.onShiftClick (TF := Sample.facility)
                                        o winterNoon sh st [])))
    by (symmetry; exact Hv).
  vm_compute in Hb. injection Hb as ->. reflexivity.
Defined.


(** X16: with the date input cleared, a click resolves the shift on the
    current day in the zone: the interval handed on is the one of the call
    without a date. *)
Theorem cleared_date_resolves_today (TF : TimeFacility) (o : Panel.SimpleOptions)
    (now : Z) (sh : Shift) (st : Panel.State) (log : list TimeRange)
    (r : TimeRange) :
  getShiftTimeRange (Some sh) (Some (Panel.timezoneOf o)) None now = Return r ->
  snd (Panel.onShiftClick o now sh (Panel.onDateChange "" st) log)
  = (log ++ [r])%list.
Proof.
  intros Hr. unfold Panel.onShiftClick, Panel.onDateChange.
  cbn [Panel.selectedDate].
  change (getShiftTimeRange (Some sh) (Some (Panel.timezoneOf o)) (Some "") now)
    with (getShiftTimeRange (Some sh) (Some (Panel.timezoneOf o)) None now).
  now rewrite Hr.
Qed.

Lemma cleared_date_resolves_today_witness :
  let o := Panel.mkOptions (Some [mkShift "Morning" "08:00" "16:00" None])
             Panel.ButtonsMode None None in
  let r := {| from := civil 2025 1 16 7 0; to := civil 2025 1 16 15 0 |} in
  getShiftTimeRange (TF := Sample.facility)
    (Some (mkShift "Morning" "08:00" "16:00" None)) (Some "Europe/Warsaw")
    None (civil 2025 1 15 23 30) = Return r /\
  snd (Panel.onShiftClick (TF := Sample.facility) o (civil 2025 1 15 23 30)
         (mkShift "Morning" "08:00" "16:00" None)
         (Panel.onDateChange "" (Panel.mkState "2025-01-10" None None)) [])
  = [r].
Proof.
  intros o r.
  assert (Hr : getShiftTimeRange (TF := Sample.facility)
                 (Some (mkShift "Morning" "08:00" "16:00" None))
                 (Some "Europe/Warsaw") None (civil 2025 1 15 23 30) = Return r)
    by (vm_compute; reflexivity).
  split; [exact Hr|].
  exact (cleared_date_resolves_today Sample.facility o (civil 2025 1 15 23 30)
           (mkShift "Morning" "08:00" "16:00" None)
           (Panel.mkState "2025-01-10" None None) [] r Hr).
Defined.

(** * The shifts editor *)

Lemma assign_in_range (l : list Shift) (i : nat) (x s : Shift) :
  nth_error l i = Some s ->
  exists l',
    Editor.assign l i x = Some l' /\
    length l' = length l /\
    nth_error l' i = Some x /\
    forall j, j <> i -> nth_error l' j = nth_error l j.
Proof.
  revert i. induction l as [|h t IH]; intros [|i] H; try discriminate.
  - exists (x :: t). cbn. repeat split. intros [|j] Hj; [congruence|reflexivity].
  - cbn in H. destruct (IH i H) as (t' & Ha & Hlen & Hi & Hrest).
    exists (h :: t'). cbn. rewrite Ha. cbn. repeat split.
    + now rewrite Hlen.
    + exact Hi.
    + intros [|j] Hj; [reflexivity|]. cbn. apply Hrest. congruence.
Qed.

(** X17: the row added by 'Add Shift' and removed again leaves the list
    as it was; adding puts the new shift last and keeps the rows before it. *)
Theorem add_then_remove_restores (value : option (list Shift)) :
  let n := length (Editor.shiftsOf value) in
  Editor.onRemoveShift (Some (Editor.onAddShift value)) n = Editor.shiftsOf value /\
  length (Editor.onAddShift value) = S n /\
  nth_error (Editor.onAddShift value) n = Some Editor.newShift /\
  forall j, (j < n)%nat ->
    nth_error (Editor.onAddShift value) j = nth_error (Editor.shiftsOf value) j.
Proof.
  cbv zeta. unfold Editor.onRemoveShift, Editor.onAddShift.
  cbn [Editor.shiftsOf]. generalize (Editor.shiftsOf value). intros l.
  repeat split.
  - rewrite firstn_app, firstn_all, Nat.sub_diag. cbn [firstn].
    rewrite skipn_all2 by (rewrite length_app; cbn; lia).
    now rewrite !app_nil_r.
  - rewrite length_app. cbn. lia.
  - rewrite nth_error_app2 by lia. now rewrite Nat.sub_diag.
  - intros j Hj. now apply nth_error_app1.
Qed.

Lemma add_then_remove_restores_witness :
  Editor.onRemoveShift
    (Some (Editor.onAddShift (Some [mkShift "A" "06:00" "14:00" None]))) 1
  = [mkShift "A" "06:00" "14:00" None] /\
  nth_error (Editor.onAddShift (Some [mkShift "A" "06:00" "14:00" None])) 0
  = Some (mkShift "A" "06:00" "14:00" None).
Proof.
  split.
  - exact (proj1 (add_then_remove_restores (Some [mkShift "A" "06:00" "14:00" None]))).
  - apply (proj2 (proj2 (proj2
             (add_then_remove_restores (Some [mkShift "A" "06:00" "14:00" None]))))).
    cbn. lia.
Defined.

(** X18: Remove drops exactly the row of its index: the list is one
    shorter, the rows before the index stay and the rows after it move up by
    one. *)
Theorem remove_drops_one_row (value : option (list Shift)) (index : nat) :
  (index < length (Editor.shiftsOf value))%nat ->
  S (length (Editor.onRemoveShift value index)) = length (Editor.shiftsOf value) /\
  (forall j, (j < index)%nat ->
     nth_error (Editor.onRemoveShift value index) j
     = nth_error (Editor.shiftsOf value) j) /\
  (forall j, (index <= j)%nat ->
     nth_error (Editor.onRemoveShift value index) j
     = nth_error (Editor.shiftsOf value) (S j)).
Proof.
  unfold Editor.onRemoveShift. generalize (Editor.shiftsOf value). intros l Hi.
  assert (Hf : length (firstn index l) = index)
    by (rewrite length_firstn; lia).
  repeat split.
  - rewrite length_app, Hf, length_skipn. lia.
  - intros j Hj. rewrite nth_error_app1 by lia.
    rewrite nth_error_firstn. destruct (Nat.ltb_spec j index); [reflexivity|lia].
  - intros j Hj. rewrite nth_error_app2 by lia.
    rewrite Hf, nth_error_skipn. f_equal. lia.
Qed.

Lemma remove_drops_one_row_witness :
  let a := mkShift "A" "06:00" "14:00" None in
  let b := mkShift "B" "14:00" "22:00" None in
  let c := mkShift "C" "22:00" "06:00" None in
  (1 < length (Editor.shiftsOf (Some [a; b; c])))%nat /\
  nth_error (Editor.onRemoveShift (Some [a; b; c]) 1) 1 = Some c.
Proof.
  intros a b c.
  assert (Hi : (1 < length (Editor.shiftsOf (Some [a; b; c])))%nat) by (cbn; lia).
  split; [exact Hi|].
  rewrite (proj2 (proj2 (remove_drops_one_row (Some [a; b; c]) 1 Hi)) 1%nat (le_n 1)).
  reflexivity.
Defined.




(** X21: the shift that 'Add Shift' creates resolves, for every zone and
    date that resolve, to an interval of exactly eight hours. *)
Theorem new_shift_spans_eight_hours (TF : TimeFacility) (z : string)
    (sd : option string) (now : Z) :
  resolvable (Some z) sd now = true ->
  exists r,
    getShiftTimeRange (Some Editor.newShift) (Some z) sd now = Return r /\
    to r - from r = 8 * MS_HOUR.
Proof.
  intros Hres.
  assert (Ha : accepted Editor.newShift z sd now = true).
  { unfold accepted. unfold resolvable in Hres. rewrite Hres. reflexivity. }
  destruct (getShiftTimeRange_accepts _ _ _ _ Ha) as [r Hr].
  exists r. split; [exact Hr|].
  destruct (getShiftTimeRange_returns _ _ _ _ _ Hr)
    as (sh & z' & s & e & Esh & _ & _ & _ & _ & _ & Hs & He & _ & _ & Hf & Ht).
  injection Esh as <-.
  vm_compute in Hs, He. injection Hs as <-. injection He as <-.
  rewrite Hf, Ht. cbn. unfold MS_MINUTE, MS_HOUR. lia.
Qed.

Lemma new_shift_spans_eight_hours_witness :
  resolvable (TF := Sample.facility) (Some "Europe/Warsaw") (Some "2025-01-15")
    winterNoon = true /\
  exists r,
    getShiftTimeRange (TF := Sample.facility) (Some Editor.newShift)
      (Some "Europe/Warsaw") (Some "2025-01-15") winterNoon = Return r /\
    to r - from r = 8 * MS_HOUR.
Proof.
  split; [reflexivity|].
  apply (new_shift_spans_eight_hours Sample.facility "Europe/Warsaw"
           (Some "2025-01-15") winterNoon eq_refl).
Defined.

(** The digits the number input shows are read back digit by digit. *)
Lemma digits_of_uint_acc (d : Decimal.uint) (p : positive) :
  fold_left (fun acc c => acc * 10 + Js.digitValue c)
    (list_ascii_of_string (DecimalString.NilEmpty.string_of_uint d)) (Z.pos p)
  = Z.pos (Pos.of_uint_acc d p).
Proof.
  revert p. induction d; intros p; cbn [DecimalString.NilEmpty.string_of_uint
    list_ascii_of_string fold_left Pos.of_uint_acc]; [reflexivity| ..];
    rewrite <- IHd; f_equal;
    match goal with
    | |- context [Js.digitValue ?c] =>
        let v := eval vm_compute in (Js.digitValue c) in
        change (Js.digitValue c) with v
    end; lia.
Qed.

Lemma digits_of_uint (d : Decimal.uint) :
  fold_left (fun acc c => acc * 10 + Js.digitValue c)
    (list_ascii_of_string (DecimalString.NilEmpty.string_of_uint d)) 0
  = Z.of_N (Pos.of_uint d).
Proof.
  induction d; cbn [DecimalString.NilEmpty.string_of_uint
    list_ascii_of_string fold_left Pos.of_uint]; [reflexivity|exact IHd| ..];
    cbn [N.to_nat Z.of_N]; rewrite <- digits_of_uint_acc; reflexivity.
Qed.

Lemma span_digits_of_uint (d : Decimal.uint) :
  Js.span Js.isDecimalDigit
    (list_ascii_of_string (DecimalString.NilEmpty.string_of_uint d))
  = (list_ascii_of_string (DecimalString.NilEmpty.string_of_uint d), []).
Proof.
  induction d; cbn [DecimalString.NilEmpty.string_of_uint
    list_ascii_of_string]; [reflexivity| ..];
    cbn [Js.span]; rewrite IHd; reflexivity.
Qed.

Lemma head_of_uint_is_digit (d : Decimal.uint) :
  match list_ascii_of_string (DecimalString.NilEmpty.string_of_uint d) with
  | c :: _ => Js.isStrWhiteSpace c = false /\ (Js.code c =? 45) = false
              /\ (Js.code c =? 43) = false
  | [] => True
  end.
Proof.
  destruct d; cbn; auto.
Qed.

Lemma parseIntOr0_of_uint (d : Decimal.uint) :
  Editor.parseIntOr0 (DecimalString.NilEmpty.string_of_uint d) = Z.of_uint d /\
  Editor.parseIntOr0 (String "-" (DecimalString.NilEmpty.string_of_uint d))
  = - Z.of_uint d.
Proof.
  unfold Editor.parseIntOr0, Z.of_uint. split.
  - pose proof (head_of_uint_is_digit d) as Hh.
    pose proof (digits_of_uint d) as Hv. pose proof (span_digits_of_uint d) as Hsp.
    destruct (list_ascii_of_string (DecimalString.NilEmpty.string_of_uint d))
      as [|c r] eqn:E.
    + cbn. cbn in Hv. lia.
    + destruct Hh as (Hw & Hm & Hp). cbn [Js.dropWhile]. rewrite Hw, Hm, Hp, Hsp.
      unfold Js.digitsValue. rewrite Hv. lia.
  - cbn [list_ascii_of_string Js.dropWhile]. 
    change (Js.isStrWhiteSpace "-") with false. cbv iota.
    change (Js.code "-" =? 45) with true. cbv iota.
    rewrite span_digits_of_uint. unfold Js.digitsValue.
    rewrite digits_of_uint. lia.
Qed.


(** * The error boundary *)

Lemma boundary_error_kept (evs : list Boundary.Event) (st : Boundary.State) :
  Boundary.hasError st = true ->
  Boundary.hasError (fold_left Boundary.step evs st) = true.
Proof.
  revert st. induction evs as [|ev evs IH]; intros st H; [exact H|].
  cbn [fold_left]. apply IH. destruct ev; cbn; [reflexivity|exact H].
Qed.

(** X23: once an error has been caught the boundary never renders its
    children again, whatever lifecycle calls follow: it renders the
    fallback when one is given, and otherwise the default view with a
    message that is never empty. *)
Theorem boundary_stays_in_error (st : Boundary.State) (message : string)
    (evs : list Boundary.Event) :
  let final :=
    fold_left Boundary.step evs
      (Boundary.step st (Boundary.DerivedStateFromError message)) in
  Boundary.render true final = Boundary.Fallback /\
  (exists shown, Boundary.render false final = Boundary.DefaultUI shown /\
                 shown <> "") /\
  Boundary.render true Boundary.initial = Boundary.Children /\
  Boundary.render false Boundary.initial = Boundary.Children.
Proof.
  cbv zeta.
  assert (H : Boundary.hasError
                (fold_left Boundary.step evs
                   (Boundary.step st (Boundary.DerivedStateFromError message)))
              = true) by (apply boundary_error_kept; reflexivity).
  unfold Boundary.render. rewrite H. repeat split.
  destruct (Boundary.error _) as [[|c m]|]; eexists; split;
    try reflexivity; discriminate.
Qed.
